(** * Validation selectors of the show viewer: sampling, derived metrics,
      closest-pair distances and validation thresholds.

    The development embeds [features/validation/selectors.js].  JavaScript
    numbers are modelled as real numbers with exact arithmetic: [Math.ceil] is
    the integer ceiling, [Math.hypot] the Euclidean norm, and the non-finite
    values (NaN, the infinities) are outside the model.  Arrays are lists,
    [array.map(f)] is [f <$> array], and a plain object is the finite map of
    its own properties; what it inherits from [Object.prototype] is modelled
    where the selectors can reach it ([member], [assignProperty]). *)

From Stdlib Require Import Reals Lra Lia ZArith.
From stdpp Require Import gmap strings list.

#[local] Open Scope R_scope.

(** ** The JavaScript primitives the selectors call *)

Module Js.

(** [Math.ceil] on a finite number. *)
Definition ceil (x : R) : Z := Zceil x.

(** [Math.hypot(a, b)] and [Math.hypot(a, b, c)]. *)
Definition hypot2 (a b : R) : R := sqrt (a * a + b * b).
Definition hypot3 (a b c : R) : R := sqrt (a * a + b * b + c * c).

(** lodash [baseRange(start, end, step)]: [length] values, starting at
    [start] and moving by [step]. *)
Fixpoint baseRange (start step : Z) (length : nat) : list Z :=
  match length with
  | O => []
  | S k => start :: baseRange (start + step)%Z step k
  end.

(** lodash [range(end)] with a single integral argument: [start] is 0, the
    step is [1] when [0 < end] and [-1] otherwise, and the length is
    [max(ceil((end - start) / step), 0)].  A negative [end] therefore
    counts downwards: [range(-4)] is [[0, -1, -2, -3]]. *)
Definition range (end_ : Z) : list Z :=
  let start := 0%Z in
  let step := if (start <? end_)%Z then 1%Z else (-1)%Z in
  baseRange start step (Z.to_nat (Z.max ((end_ - start) / step) 0)).

(** [array[array.length - 1]], [None] standing for [undefined]. *)
Definition lastItem {A} (l : list A) : option A := l !! (length l - 1)%nat.

End Js.

(** ** The module [./constants], which the selectors import *)

(** Plain property values of a settings object. *)
Inductive value : Type :=
  | VUndefined
  | VNull
  | VNumber (r : R).

(** A settings object: property name to value. *)
Abbreviation object := (gmap string value).

(** The two constants of [./constants] are parameters of the development. *)
Class Constants := {
  SAMPLES_PER_SECOND : R;
  DEFAULT_VALIDATION_SETTINGS : gmap string object
}.

(** ** Points, trajectory players and the store *)

Record Point3D := mkPoint { x : R; y : R; z : R }.

(** The capability a trajectory player offers: position and velocity at a
    time.  The second argument of the source calls, [{ t: time }], is a fresh
    object at every call, so no two samples share a result object. *)
Record TrajectoryPlayer := {
  getPositionAt : R -> Point3D;
  getVelocityAt : R -> Point3D
}.

(** The part of the store that the selectors read.  [validation] is what
    [get(state, 'show.data.settings.validation')] returns: [None] when the
    path is missing ([undefined]), the object otherwise. *)
Record State := {
  showDuration : R;
  showEnvironmentType : string;
  trajectoryPlayers : list TrajectoryPlayer;
  validation : option object
}.

(** Selectors of [~/features/show/selectors]. *)
Definition getShowDuration (state : State) : R := showDuration state.
Definition getShowEnvironmentType (state : State) : string :=
  showEnvironmentType state.
Definition getTrajectoryPlayers (state : State) : list TrajectoryPlayer :=
  trajectoryPlayers state.

(** ** The closest pair of a frame *)

(** Cells of the array of distances that [getNearestNeighborDistancesForFrames]
    fills: [new Array(n)] starts with empty cells, and every frame stores
    either [null] or a distance. *)
Inductive distanceEntry : Type :=
  | Empty
  | Null
  | Distance (d : R).

Module ClosestPair.

(** Modelled from the spec: the distance that [./closest-pair] minimises,
    the 3D Euclidean distance [sqrt(dx² + dy² + dz²)]. *)
Definition distance (a b : Point3D) : R :=
  Js.hypot3 (x a - x b) (y a - y b) (z a - z b).

(** Modelled from the spec: one comparison of the brute-force scan of
    [./closest-pair].  The pair kept when [candidate] is compared with the
    best pair so far: a later pair replaces an earlier one only when strictly
    closer. *)
Definition closer (candidate : Point3D * Point3D)
    (best : option (Point3D * Point3D)) : option (Point3D * Point3D) :=
  match best with
  | None => Some candidate
  | Some b =>
      if Rlt_dec (distance candidate.1 candidate.2) (distance b.1 b.2)
      then Some candidate else best
  end.

(** Modelled from the spec: the inner scan of the brute-force search of
    [./closest-pair], [p] against every later point. *)
Fixpoint scanFrom (p : Point3D) (later : list Point3D)
    (best : option (Point3D * Point3D)) : option (Point3D * Point3D) :=
  match later with
  | [] => best
  | q :: later' => scanFrom p later' (closer (p, q) best)
  end.

(** Modelled from the spec: the outer scan of the brute-force search of
    [./closest-pair], over the first point of the pair. *)
Fixpoint bruteForce (points : list Point3D)
    (best : option (Point3D * Point3D)) : option (Point3D * Point3D) :=
  match points with
  | [] => best
  | p :: later => bruteForce later (scanFrom p later best)
  end.

(** Modelled from the spec: the module [./closest-pair], whose default
    export [getClosestPair] the selectors import, is not among the sources.
    The specification asks for the pair of minimal Euclidean distance among
    the points of a frame, "no pair" for fewer than two points, and accepts
    the brute-force scan over all pairs [i < j], which is what is modelled;
    among pairs at the same distance the first in scan order is kept.  The
    caller reads [closestPair[0].x] and [closestPair[1].x], so the pair is
    returned as two points, and "no pair" as a falsy value ([None]). *)
Definition getClosestPair (points : list Point3D)
    : option (Point3D * Point3D) :=
  bruteForce points None.

End ClosestPair.

(** ** The selectors *)

(** A [for (let i = 0; i < n; i++)] loop whose body may raise: the state is
    threaded through the indices in order, [None] is an exception. *)
Fixpoint forLoop {S : Type} (body : S -> nat -> option S) (indices : list nat)
    (s : S) : option S :=
  match indices with
  | [] => Some s
  | i :: rest => s' ← body s i; forLoop body rest s'
  end.

Section Selectors.
Context `{Constants}.

(** *** Validation settings *)

(** Reading a property of a settings object: [undefined] when the object
    does not have it.  It is applied to the legacy and canonical property
    names only, none of which is a name of [Object.prototype]. *)
Definition prop (o : object) (key : string) : value :=
  default VUndefined (o !! key).

Definition isUndefined (v : value) : bool :=
  match v with VUndefined => true | _ => false end.

(** The names of the properties that every plain object inherits from
    [Object.prototype]. *)
Definition objectPrototypeKeys : list string :=
  ["constructor"; "hasOwnProperty"; "isPrototypeOf"; "propertyIsEnumerable";
   "toLocaleString"; "toString"; "valueOf"; "__proto__";
   "__defineGetter__"; "__defineSetter__"; "__lookupGetter__";
   "__lookupSetter__"].

(** [table[key]] on a plain object whose own properties hold objects: the
    own property when there is one; otherwise, for a name of
    [Object.prototype], the inherited member, a function or the prototype
    itself, which is truthy and has no enumerable own property, so that it
    behaves here as an object without properties; otherwise [undefined]. *)
Definition member (table : gmap string object) (key : string)
    : option object :=
  match table !! key with
  | Some o => Some o
  | None => if bool_decide (key ∈ objectPrototypeKeys) then Some ∅ else None
  end.

(** [object[key] = value] for a value that is not an object, on a plain
    object: the own property is created or overwritten, except for the key
    ["__proto__"], where the assignment reaches the setter inherited from
    [Object.prototype] and creates no own property. *)
Definition assignProperty {V : Type} (o : gmap string V) (key : string)
    (value : V) : gmap string V :=
  if decide (key = "__proto__") then o else <[key := value]> o.

(** [{ ...source }] with a source that may be [undefined]. *)
Definition spread (source : option object) : object := default ∅ source.

(** [Object.assign(target, source)]: every property of the source is
    assigned to the target, which overwrites the target's, except that the
    assignment of a key ["__proto__"] creates no property (see
    [assignProperty]); an [undefined] source is skipped. *)
Definition objectAssign (target : object) (source : option object) : object :=
  match source with
  | Some s => delete "__proto__" s ∪ target
  | None => target
  end.

(** [a || b] on objects that may be [undefined]. *)
Definition orElse {A} (a b : option A) : option A :=
  match a with Some _ => a | None => b end.

(** The combiner of [getValidationSettings]. *)
Definition validationSettings (validation : option object) (type : string)
    : object :=
  let settings :=
    spread (orElse (member DEFAULT_VALIDATION_SETTINGS type)
                   (member DEFAULT_VALIDATION_SETTINGS "outdoor")) in
  match validation with
  | Some v =>
      if negb (isUndefined (prop v "max_altitude")) then
        let settings := <["maxAltitude" := prop v "max_altitude"]> settings in
        let settings := <["maxVelocityXY" := prop v "max_velocity_xy"]> settings in
        let settings := <["maxVelocityZ" := prop v "max_velocity_z"]> settings in
        let settings := <["minDistance" := prop v "min_distance"]> settings in
        settings
      else objectAssign settings validation
  | None => objectAssign settings validation
  end.

Definition getValidationSettings (state : State) : object :=
  validationSettings (validation state) (getShowEnvironmentType state).

Definition getAltitudeWarningThreshold (state : State) : value :=
  prop (getValidationSettings state) "maxAltitude".
Definition getHorizontalVelocityThreshold (state : State) : value :=
  prop (getValidationSettings state) "maxVelocityXY".
Definition getProximityWarningThreshold (state : State) : value :=
  prop (getValidationSettings state) "minDistance".
Definition getVerticalVelocityThreshold (state : State) : value :=
  prop (getValidationSettings state) "maxVelocityZ".

(** *** The sample-time grid *)

(** The combiner of [getSampledTimeInstants]. *)
Definition sampledTimeInstants (duration : R) : list R :=
  let numberSamples := Js.ceil (duration * SAMPLES_PER_SECOND) in
  let result :=
    (fun x => IZR x / SAMPLES_PER_SECOND) <$> Js.range numberSamples in
  if bool_decide (0 < length result)%nat then
    match Js.lastItem result with
    | Some l => if Rlt_dec l duration then result ++ [duration] else result
    | None => result
    end
  else result.

Definition getSampledTimeInstants (state : State) : list R :=
  sampledTimeInstants (getShowDuration state).

(** *** Positions and velocities of every drone at every instant *)

Definition sampledPositionsForDrones (players : list TrajectoryPlayer)
    (samples : list R) : list (list Point3D) :=
  (fun player => (fun time => getPositionAt player time) <$> samples)
    <$> players.

Definition getSampledPositionsForDrones (state : State) : list (list Point3D) :=
  sampledPositionsForDrones (getTrajectoryPlayers state)
                            (getSampledTimeInstants state).

Definition sampledVelocitiesForDrones (players : list TrajectoryPlayer)
    (samples : list R) : list (list Point3D) :=
  (fun player => (fun time => getVelocityAt player time) <$> samples)
    <$> players.

Definition getSampledVelocitiesForDrones (state : State) : list (list Point3D) :=
  sampledVelocitiesForDrones (getTrajectoryPlayers state)
                             (getSampledTimeInstants state).

(** *** Derived sequences *)

Definition sampledAltitudesForDrones (positionsByDrones : list (list Point3D))
    : list (list R) :=
  (fun positions : list Point3D => (fun coord => z coord) <$> positions)
    <$> positionsByDrones.

Definition getSampledAltitudesForDrones (state : State) : list (list R) :=
  sampledAltitudesForDrones (getSampledPositionsForDrones state).

Definition sampledHorizontalVelocitiesForDrones
    (velocitiesByDrones : list (list Point3D)) : list (list R) :=
  (fun velocities : list Point3D =>
     (fun coord => Js.hypot2 (x coord) (y coord)) <$> velocities)
    <$> velocitiesByDrones.

Definition getSampledHorizontalVelocitiesForDrones (state : State)
    : list (list R) :=
  sampledHorizontalVelocitiesForDrones (getSampledVelocitiesForDrones state).

Definition sampledVerticalVelocitiesForDrones
    (velocitiesByDrones : list (list Point3D)) : list (list R) :=
  (fun velocities : list Point3D =>
     (fun coord => z coord) <$> velocities)
    <$> velocitiesByDrones.

Definition getSampledVerticalVelocitiesForDrones (state : State)
    : list (list R) :=
  sampledVerticalVelocitiesForDrones (getSampledVelocitiesForDrones state).

(** *** Distance of the closest pair, frame by frame *)

(** [positionsByDrones[droneIndex][frameIndex]], [None] for [undefined]. *)
Definition positionAt (positionsByDrones : list (list Point3D))
    (droneIndex frameIndex : nat) : option Point3D :=
  positions ← positionsByDrones !! droneIndex; positions !! frameIndex.

(** The inner loop: the shared array [positionsInCurrentFrame] is
    overwritten cell by cell with the positions of frame [frameIndex]. *)
Definition fillFrame (positionsByDrones : list (list Point3D))
    (numberDrones frameIndex : nat)
    (positionsInCurrentFrame : list (option Point3D))
    : list (option Point3D) :=
  fold_left
    (fun frame droneIndex =>
       <[droneIndex := positionAt positionsByDrones droneIndex frameIndex]>
         frame)
    (seq 0 numberDrones) positionsInCurrentFrame.

(** What is stored for a frame, given the answer of [getClosestPair]. *)
Definition entryOf (closestPair : option (Point3D * Point3D))
    : distanceEntry :=
  match closestPair with
  | Some (a, b) => Distance (Js.hypot3 (x a - x b) (y a - y b) (z a - z b))
  | None => Null
  end.

(** The body of the outer loop.  [getClosestPair] is specified on
    sequences of points only: a frame with an [undefined] cell is outside
    its domain and is modelled as an exception. *)
Definition frameBody (positionsByDrones : list (list Point3D))
    (numberDrones : nat)
    (s : list distanceEntry * list (option Point3D)) (frameIndex : nat)
    : option (list distanceEntry * list (option Point3D)) :=
  let '(result, positionsInCurrentFrame) := s in
  let positionsInCurrentFrame :=
    fillFrame positionsByDrones numberDrones frameIndex
              positionsInCurrentFrame in
  points ← mapM (fun cell : option Point3D => cell) positionsInCurrentFrame;
  let closestPair := ClosestPair.getClosestPair points in
  Some (<[frameIndex := entryOf closestPair]> result,
        positionsInCurrentFrame).

(** The combiner of [getNearestNeighborDistancesForFrames]. *)
Definition nearestNeighborDistancesForFrames
    (positionsByDrones : list (list Point3D)) (times : list R)
    : option (list distanceEntry) :=
  let numberFrames := length times in
  let numberDrones := length positionsByDrones in
  let result := replicate numberFrames Empty in
  let positionsInCurrentFrame := replicate numberDrones None in
  fst <$> forLoop (frameBody positionsByDrones numberDrones)
                  (seq 0 numberFrames)
                  (result, positionsInCurrentFrame).

Definition getNearestNeighborDistancesForFrames (state : State)
    : option (list distanceEntry) :=
  nearestNeighborDistancesForFrames (getSampledPositionsForDrones state)
                                    (getSampledTimeInstants state).

End Selectors.

(** ** Predicates of the statements *)

(** Every later element is strictly larger than every earlier one. *)
Definition strictly_increasing (l : list R) : Prop :=
  forall (i j : nat) (a b : R),
    l !! i = Some a -> l !! j = Some b -> (i < j)%nat -> a < b.

(** The uniform part of the grid: the samples [i / SAMPLES_PER_SECOND]. *)
Definition uniformSamples `{Constants} (n : Z) : list R :=
  (fun x => IZR x / SAMPLES_PER_SECOND) <$> Js.range n.

(** The default settings of an environment type, as the first statement of
    [getValidationSettings] selects them: [DEFAULT_VALIDATION_SETTINGS[type]],
    or the outdoor entry when that is [undefined]. *)
Definition environmentDefaults `{Constants} (type : string) : object :=
  spread (orElse (member DEFAULT_VALIDATION_SETTINGS type)
                 (member DEFAULT_VALIDATION_SETTINGS "outdoor")).

(** The legacy input [{max_altitude: 50, max_velocity_xy: 5,
    max_velocity_z: 3, min_distance: 2}]. *)
Definition legacyInput : object :=
  <["max_altitude" := VNumber 50]>
    (<["max_velocity_xy" := VNumber 5]>
       (<["max_velocity_z" := VNumber 3]>
          (<["min_distance" := VNumber 2]> ∅))).

(** The canonical partial input [{maxAltitude: 80}]. *)
Definition canonicalPartialInput : object := {["maxAltitude" := VNumber 80]}.

(** The property names of a resolved settings object. *)
Definition canonicalKeys : list string :=
  ["maxAltitude"; "maxVelocityXY"; "maxVelocityZ"; "minDistance"].

(** The pairs [(points[i], points[j])] with [i < j]. *)
Definition orderedPair (points : list Point3D) (pr : Point3D * Point3D)
    : Prop :=
  exists i j : nat,
    (i < j)%nat /\ points !! i = Some pr.1 /\ points !! j = Some pr.2.

(** [d] is the minimum of the Euclidean distance over all pairs [i < j] of
    [points]: it is the distance of one such pair and a lower bound of the
    distance of every such pair. *)
Definition minimalPairwiseDistance (points : list Point3D) (d : R) : Prop :=
  (exists i j p q, (i < j)%nat /\ points !! i = Some p /\ points !! j = Some q
                   /\ d = sqrt ((x p - x q) * (x p - x q)
                                + (y p - y q) * (y p - y q)
                                + (z p - z q) * (z p - z q)))
  /\ (forall i j p q, (i < j)%nat -> points !! i = Some p ->
         points !! j = Some q ->
         d <= sqrt ((x p - x q) * (x p - x q)
                    + (y p - y q) * (y p - y q)
                    + (z p - z q) * (z p - z q))).

(** The invariant of the scan: [best] is a pair of the set [seen] at the
    least distance, and is present as soon as [seen] has a pair. *)
Definition leastOf (seen : Point3D * Point3D -> Prop)
    (best : option (Point3D * Point3D)) : Prop :=
  (forall pr, seen pr ->
     exists b, best = Some b
               /\ ClosestPair.distance b.1 b.2 <= ClosestPair.distance pr.1 pr.2)
  /\ (forall b, best = Some b -> seen b).

(** The cells of frame [frameIndex], as the inner loop leaves them: one
    cell per drone, [None] where the drone has no position at that index. *)
Definition frameAt (positionsByDrones : list (list Point3D))
    (frameIndex : nat) : list (option Point3D) :=
  (fun droneIndex => positionAt positionsByDrones droneIndex frameIndex)
    <$> seq 0 (length positionsByDrones).

(** What the outer loop stores for frame [frameIndex]. *)
Definition entryAt (positionsByDrones : list (list Point3D))
    (frameIndex : nat) : option distanceEntry :=
  points ← mapM (fun cell : option Point3D => cell)
                (frameAt positionsByDrones frameIndex);
  Some (entryOf (ClosestPair.getClosestPair points)).

(** The positions of all drones at one instant. *)
Definition positionsAtTime (players : list TrajectoryPlayer) (time : R)
    : list Point3D :=
  (fun player => getPositionAt player time) <$> players.

(** ** Sample data for concrete evaluations *)

(** A sample instance of the constants: four samples per second, as in the
    worked example of the specification, and one table of defaults. *)
Definition sampleDefaults : object :=
  <["maxAltitude" := VNumber 150]>
    (<["maxVelocityXY" := VNumber 10]>
       (<["maxVelocityZ" := VNumber 2]>
          (<["minDistance" := VNumber 3]> ∅))).

Definition sampleConstants : Constants :=
  {| SAMPLES_PER_SECOND := 4;
     DEFAULT_VALIDATION_SETTINGS := <["outdoor" := sampleDefaults]> ∅ |}.

(** A store with no drones and no validation settings. *)
Definition emptyShow (duration : R) : State :=
  {| showDuration := duration;
     showEnvironmentType := "outdoor";
     trajectoryPlayers := [];
     validation := None |}.

(** A player that stays at [position] and reports [velocity] at every
    time. *)
Definition steadyPlayer (position velocity : Point3D) : TrajectoryPlayer :=
  {| getPositionAt := fun _ => position;
     getVelocityAt := fun _ => velocity |}.

(** A one-second show with two drones, at the origin and at [(3, 4, 0)], both
    reporting the velocity [(3, 4, 0)]. *)
Definition twoDroneShow : State :=
  {| showDuration := 1;
     showEnvironmentType := "outdoor";
     trajectoryPlayers :=
       [steadyPlayer (mkPoint 0 0 0) (mkPoint 3 4 0);
        steadyPlayer (mkPoint 3 4 0) (mkPoint 3 4 0)];
     validation := None |}.

(** ** The selection of the validation panel *)

(** The slice [state.validation] of the store, as far as the selectors below
    read it: [selection] is [None] when the property is [undefined]. *)
Record ValidationSlice := {
  selection : option (list string);
  visiblePanels : list string
}.

(** [array.forEach((item, index) => ...)] with a body that updates a state:
    the items are visited in order, [index] counting from [start]. *)
Fixpoint forEachIndexed {A T : Type} (body : T -> A -> nat -> T)
    (items : list A) (start : nat) (s : T) : T :=
  match items with
  | [] => s
  | item :: rest => forEachIndexed body rest (S start) (body s item start)
  end.

(** [getSelection]: [state.validation.selection || []]. *)
Definition getSelection (slice : ValidationSlice) : list string :=
  default [] (selection slice).

(** The combiner of [getSelectionToChartIndexMapping]: starting from the
    empty object, [mapping[itemId] = index] for every item in order.  The
    mapping holds the own properties of the object. *)
Definition selectionToChartIndexMapping (selection : list string)
    : gmap string nat :=
  forEachIndexed (fun mapping itemId index =>
                    assignProperty mapping itemId index)
                 selection 0%nat ∅.

Definition getSelectionToChartIndexMapping (slice : ValidationSlice)
    : gmap string nat :=
  selectionToChartIndexMapping (getSelection slice).

(** [getVisiblePanels]. *)
Definition getVisiblePanels (slice : ValidationSlice) : list string :=
  visiblePanels slice.

(** [isItemSelected]: [getSelection(state).includes(itemId)]. *)
Definition isItemSelected (slice : ValidationSlice) (itemId : string) : bool :=
  bool_decide (itemId ∈ getSelection slice).

(** [isSelectionEmpty]: [getSelection(state).length === 0]. *)
Definition isSelectionEmpty (slice : ValidationSlice) : bool :=
  Nat.eqb (length (getSelection slice)) 0.

(** [index] is the last position at which [itemId] occurs in [items]. *)
Definition lastPositionOf (items : list string) (itemId : string)
    (index : nat) : Prop :=
  items !! index = Some itemId
  /\ forall later : nat, (index < later)%nat -> items !! later <> Some itemId.

(** A selection with a repeated item, and the slice that holds it. *)
Definition sampleSlice : ValidationSlice :=
  {| selection := Some ["drone-1"; "drone-7"; "drone-1"];
     visiblePanels := ["altitude"] |}.

(** The property names of the legacy shape, in the order in which the
    legacy branch reads them. *)
Definition legacyKeys : list string :=
  ["max_altitude"; "max_velocity_xy"; "max_velocity_z"; "min_distance"].

(** The raw validation settings of a store, [undefined] read as the empty
    object. *)
Definition rawValidation (state : State) : object :=
  default ∅ (validation state).

(** The store [state] with its raw validation settings replaced. *)
Definition withValidation (state : State) (raw : option object) : State :=
  {| showDuration := showDuration state;
     showEnvironmentType := showEnvironmentType state;
     trajectoryPlayers := trajectoryPlayers state;
     validation := raw |}.

(** The store [state] with another environment type. *)
Definition withEnvironmentType (state : State) (type : string) : State :=
  {| showDuration := showDuration state;
     showEnvironmentType := type;
     trajectoryPlayers := trajectoryPlayers state;
     validation := validation state |}.

(** * Properties *)

(** ** lodash [range] *)

Section RangeFacts.

Lemma baseRange_length (start step : Z) (n : nat) :
  length (Js.baseRange start step n) = n.
Proof. revert start; induction n as [|n IH]; intros start; simpl; auto. Qed.

Lemma baseRange_lookup (start step : Z) (n i : nat) :
  (i < n)%nat ->
  Js.baseRange start step n !! i = Some (start + Z.of_nat i * step)%Z.
Proof.
  revert start i; induction n as [|n IH]; intros start i Hi; [lia|].
  destruct i as [|i]; simpl.
  - f_equal; lia.
  - rewrite IH by lia. f_equal; lia.
Qed.

Lemma div_minus_one (n : Z) : (n / -1 = - n)%Z.
Proof. symmetry. apply (Z.div_unique n (-1) (- n) 0); lia. Qed.

Lemma range_length (n : Z) : length (Js.range n) = Z.to_nat (Z.abs n).
Proof.
  unfold Js.range. rewrite baseRange_length.
  destruct (Z.ltb_spec 0 n).
  - rewrite Z.sub_0_r, Z.div_1_r. lia.
  - rewrite Z.sub_0_r.
    rewrite div_minus_one.
    lia.
Qed.

Lemma range_lookup_pos (n : Z) (i : nat) :
  (0 < n)%Z -> (Z.of_nat i < n)%Z -> Js.range n !! i = Some (Z.of_nat i).
Proof.
  intros Hn Hi. unfold Js.range.
  destruct (Z.ltb_spec 0 n); [|lia].
  rewrite Z.sub_0_r, Z.div_1_r, baseRange_lookup by lia. f_equal; lia.
Qed.

Lemma range_lookup_neg (n : Z) (i : nat) :
  (n <= 0)%Z -> (Z.of_nat i < - n)%Z ->
  Js.range n !! i = Some (- Z.of_nat i)%Z.
Proof.
  intros Hn Hi. unfold Js.range.
  destruct (Z.ltb_spec 0 n); [lia|].
  rewrite Z.sub_0_r.
  rewrite div_minus_one.
  rewrite baseRange_lookup by lia. f_equal; lia.
Qed.

End RangeFacts.

(** ** The sample-time grid *)

Section GridFacts.
Context `{Constants}.

Lemma div_lt_of_lt_mul (a d r : R) : 0 < r -> a < d * r -> a / r < d.
Proof.
  intros Hr Ha. apply (Rmult_lt_reg_r r); [assumption|].
  unfold Rdiv. rewrite Rmult_assoc, Rinv_l by lra. lra.
Qed.

Lemma div_lt_div (a b r : R) : 0 < r -> a < b -> a / r < b / r.
Proof.
  intros Hr Hab. unfold Rdiv. apply Rmult_lt_compat_r; [|assumption].
  apply Rinv_0_lt_compat; assumption.
Qed.

Lemma ceil_nonneg (v : R) : 0 <= v -> (0 <= Js.ceil v)%Z.
Proof.
  intros Hv. destruct (Zceil_bound v) as [_ Hu].
  apply le_IZR. unfold Js.ceil. lra.
Qed.

Lemma uniformSamples_length (n : Z) :
  length (uniformSamples n) = Z.to_nat (Z.abs n).
Proof. unfold uniformSamples. rewrite length_fmap. apply range_length. Qed.

Lemma uniformSamples_lookup_pos (n : Z) (i : nat) :
  (0 < n)%Z -> (Z.of_nat i < n)%Z ->
  uniformSamples n !! i = Some (IZR (Z.of_nat i) / SAMPLES_PER_SECOND).
Proof.
  intros Hn Hi. unfold uniformSamples.
  rewrite list_lookup_fmap, range_lookup_pos by assumption. reflexivity.
Qed.

(** For a non-negative duration the duration itself is always appended,
    because the last uniform sample [(n - 1) / rate] lies strictly below
    it. *)
Lemma sampledTimeInstants_nonneg (duration : R) :
  0 < SAMPLES_PER_SECOND -> 0 <= duration ->
  sampledTimeInstants duration =
    if decide (Js.ceil (duration * SAMPLES_PER_SECOND) = 0%Z) then []
    else uniformSamples (Js.ceil (duration * SAMPLES_PER_SECOND))
           ++ [duration].
Proof.
  intros Hr Hd. unfold sampledTimeInstants. fold (uniformSamples
    (Js.ceil (duration * SAMPLES_PER_SECOND))).
  assert (Hn : (0 <= Js.ceil (duration * SAMPLES_PER_SECOND))%Z)
    by (apply ceil_nonneg, Rmult_le_pos; lra).
  destruct (Zceil_bound (duration * SAMPLES_PER_SECOND)) as [Hlo _].
  fold (Js.ceil (duration * SAMPLES_PER_SECOND)) in Hlo.
  set (n := Js.ceil (duration * SAMPLES_PER_SECOND)) in *.
  destruct (decide (n = 0%Z)) as [->|Hne]; [reflexivity|].
  assert (Hlen : length (uniformSamples n) = Z.to_nat n)
    by (rewrite uniformSamples_length; f_equal; lia).
  rewrite bool_decide_eq_true_2 by lia.
  unfold Js.lastItem. rewrite Hlen, uniformSamples_lookup_pos by lia.
  destruct (Rlt_dec _ duration) as [_|Hge]; [reflexivity|].
  exfalso. apply Hge, div_lt_of_lt_mul; [assumption|].
  replace (Z.of_nat (Z.to_nat n - 1)) with (n - 1)%Z by lia.
  rewrite minus_IZR. exact Hlo.
Qed.

(** C2.  For every duration at least 0 (and a positive sampling rate) the
    grid of [getSampledTimeInstants] is strictly increasing, lies within
    [[0, duration]], starts at 0 and ends at the duration when it is not
    empty, has [ceil(duration * SAMPLES_PER_SECOND)] elements or one more,
    and is empty for duration 0. *)
Theorem getSampledTimeInstants_grid (state : State) :
  0 < SAMPLES_PER_SECOND -> 0 <= getShowDuration state ->
  let duration := getShowDuration state in
  let grid := getSampledTimeInstants state in
  let n := Z.to_nat (Js.ceil (duration * SAMPLES_PER_SECOND)) in
  strictly_increasing grid
  /\ Forall (fun t => 0 <= t <= duration) grid
  /\ (grid <> [] -> head grid = Some 0 /\ last grid = Some duration)
  /\ (length grid = n \/ length grid = S n)
  /\ (duration = 0 -> grid = []).
Proof.
  intros Hr Hd duration grid n. subst grid. unfold getSampledTimeInstants.
  fold duration in Hd |- *.
  rewrite (sampledTimeInstants_nonneg duration Hr Hd).
  assert (Hn : (0 <= Js.ceil (duration * SAMPLES_PER_SECOND))%Z)
    by (apply ceil_nonneg, Rmult_le_pos; lra).
  destruct (Zceil_bound (duration * SAMPLES_PER_SECOND)) as [Hlo Hhi].
  fold (Js.ceil (duration * SAMPLES_PER_SECOND)) in Hlo, Hhi.
  subst n. set (n := Js.ceil (duration * SAMPLES_PER_SECOND)) in *.
  destruct (decide (n = 0%Z)) as [Hz|Hne].
  { split; [|split; [|split; [|split]]].
    - intros i j a b Hi. rewrite lookup_nil in Hi. discriminate.
    - constructor.
    - intros Hg. contradiction.
    - left. rewrite Hz. reflexivity.
    - reflexivity. }
  assert (Hlen : length (uniformSamples n) = Z.to_nat n)
    by (rewrite uniformSamples_length; f_equal; lia).
  assert (Hat : forall i a, (uniformSamples n ++ [duration]) !! i = Some a ->
            (i < Z.to_nat n)%nat /\ a = IZR (Z.of_nat i) / SAMPLES_PER_SECOND
            \/ i = Z.to_nat n /\ a = duration).
  { intros i a Hi. destruct (Nat.lt_ge_cases i (Z.to_nat n)) as [Hlt|Hge].
    - left. split; [assumption|].
      rewrite lookup_app_l, uniformSamples_lookup_pos in Hi by lia.
      congruence.
    - right. rewrite lookup_app_r, Hlen in Hi by lia.
      destruct (i - Z.to_nat n)%nat as [|k] eqn:Hk; simpl in Hi.
      + split; [lia | congruence].
      + rewrite lookup_nil in Hi. discriminate. }
  assert (Hbelow : forall i : nat, (i < Z.to_nat n)%nat ->
            IZR (Z.of_nat i) / SAMPLES_PER_SECOND < duration).
  { intros i Hi. apply div_lt_of_lt_mul; [assumption|].
    apply Rle_lt_trans with (IZR n - 1); [|exact Hlo].
    rewrite <- minus_IZR. apply IZR_le. lia. }
  split; [|split; [|split; [split|split]]].
  - intros i j a b Hi Hj Hij.
    destruct (Hat i a Hi) as [[Hi1 ->]|[Hi1 ->]];
      destruct (Hat j b Hj) as [[Hj1 ->]|[Hj1 ->]]; try lia.
    + apply div_lt_div; [assumption|]. apply IZR_lt. lia.
    + apply Hbelow. assumption.
  - apply Forall_lookup_2. intros i a Hi.
    destruct (Hat i a Hi) as [[Hi1 ->]|[Hi1 ->]].
    + split; [|left; apply Hbelow; assumption].
      unfold Rdiv. apply Rmult_le_pos.
      * apply IZR_le. lia.
      * left. apply Rinv_0_lt_compat. assumption.
    + lra.
  - rewrite head_lookup, lookup_app_l, uniformSamples_lookup_pos by lia.
    f_equal. simpl. unfold Rdiv. apply Rmult_0_l.
  - rewrite last_lookup, length_app, Hlen. simpl.
    rewrite lookup_app_r, Hlen by lia.
    replace (pred (Z.to_nat n + 1) - Z.to_nat n)%nat with 0%nat by lia.
    reflexivity.
  - right. rewrite length_app, Hlen. simpl. lia.
  - intros Hd0. exfalso. apply Hne.
    assert (Hlt : IZR n < IZR 1)
      by (rewrite Hd0, Rmult_0_l in Hlo; simpl; lra).
    apply lt_IZR in Hlt. lia.
Qed.

Lemma uniformSamples_lookup_neg (n : Z) (i : nat) :
  (n <= 0)%Z -> (Z.of_nat i < - n)%Z ->
  uniformSamples n !! i = Some (IZR (- Z.of_nat i) / SAMPLES_PER_SECOND).
Proof.
  intros Hn Hi. unfold uniformSamples.
  rewrite list_lookup_fmap, range_lookup_neg by assumption. reflexivity.
Qed.

(** For a negative duration the count of samples is not positive, lodash
    counts downwards from 0, and the duration is never appended. *)
Lemma sampledTimeInstants_negative (duration : R) :
  0 < SAMPLES_PER_SECOND -> duration < 0 ->
  (Js.ceil (duration * SAMPLES_PER_SECOND) <= 0)%Z
  /\ sampledTimeInstants duration =
       uniformSamples (Js.ceil (duration * SAMPLES_PER_SECOND)).
Proof.
  intros Hr Hd.
  destruct (Zceil_bound (duration * SAMPLES_PER_SECOND)) as [Hlo Hhi].
  fold (Js.ceil (duration * SAMPLES_PER_SECOND)) in Hlo, Hhi.
  unfold sampledTimeInstants.
  fold (uniformSamples (Js.ceil (duration * SAMPLES_PER_SECOND))).
  set (n := Js.ceil (duration * SAMPLES_PER_SECOND)) in *.
  assert (Hneg : duration * SAMPLES_PER_SECOND < 0)
    by nra.
  assert (Hn : (n <= 0)%Z).
  { assert (Hlt : IZR n < IZR 1) by (simpl; lra).
    apply lt_IZR in Hlt. lia. }
  split; [assumption|].
  assert (Hlen : length (uniformSamples n) = Z.to_nat (- n))
    by (rewrite uniformSamples_length; f_equal; lia).
  destruct (decide (n = 0%Z)) as [->|Hne]; [reflexivity|].
  rewrite bool_decide_eq_true_2 by lia.
  unfold Js.lastItem. rewrite Hlen, uniformSamples_lookup_neg by lia.
  destruct (Rlt_dec _ duration) as [Hlt|_]; [|reflexivity].
  exfalso.
  replace (- Z.of_nat (Z.to_nat (- n) - 1))%Z with (n + 1)%Z in Hlt by lia.
  rewrite plus_IZR in Hlt.
  assert (Hmul : (IZR n + 1) / SAMPLES_PER_SECOND * SAMPLES_PER_SECOND
                 < duration * SAMPLES_PER_SECOND)
    by (apply Rmult_lt_compat_r; assumption).
  unfold Rdiv in Hmul. rewrite Rmult_assoc, Rinv_l, Rmult_1_r in Hmul by lra.
  lra.
Qed.

(** C3, as the code has it.  Nothing is rejected: for a negative duration
    (and a positive sampling rate) [getSampledTimeInstants] returns the
    [-ceil(duration * SAMPLES_PER_SECOND)] instants [0, -1/rate, -2/rate,
    ...], without a trailing duration; this is the empty grid exactly when
    [duration * SAMPLES_PER_SECOND] is above [-1]. *)
Theorem getSampledTimeInstants_negative_duration (state : State) :
  0 < SAMPLES_PER_SECOND -> getShowDuration state < 0 ->
  let duration := getShowDuration state in
  let grid := getSampledTimeInstants state in
  let n := Js.ceil (duration * SAMPLES_PER_SECOND) in
  (n <= 0)%Z
  /\ length grid = Z.to_nat (- n)
  /\ (forall i : nat, (i < length grid)%nat ->
        grid !! i = Some (IZR (- Z.of_nat i) / SAMPLES_PER_SECOND))
  /\ (grid = [] <-> -1 < duration * SAMPLES_PER_SECOND).
Proof.
  intros Hr Hd duration grid n. subst grid. unfold getSampledTimeInstants.
  fold duration in Hd |- *.
  destruct (sampledTimeInstants_negative duration Hr Hd) as [Hn ->].
  fold n in Hn |- *.
  assert (Hlen : length (uniformSamples n) = Z.to_nat (- n))
    by (rewrite uniformSamples_length; f_equal; lia).
  split; [assumption|]. split; [assumption|]. split.
  - intros i Hi. apply uniformSamples_lookup_neg; lia.
  - destruct (Zceil_bound (duration * SAMPLES_PER_SECOND)) as [Hlo Hhi].
    fold (Js.ceil (duration * SAMPLES_PER_SECOND)) in Hlo, Hhi.
    fold n in Hlo, Hhi. split.
    + intros Hnil. rewrite Hnil in Hlen. simpl in Hlen.
      assert (n = 0%Z) as Hz by lia. rewrite Hz in Hlo. simpl in Hlo. lra.
    + intros Hgt. apply length_zero_iff_nil. rewrite Hlen.
      assert (Hlt : IZR (-1) < IZR n) by (simpl; lra).
      apply lt_IZR in Hlt. lia.
Qed.

End GridFacts.

Lemma getSampledTimeInstants_grid_witness :
  let state := emptyShow (5 / 2) in
  let grid := getSampledTimeInstants (H := sampleConstants) state in
  strictly_increasing grid
  /\ Forall (fun t => 0 <= t <= 5 / 2) grid
  /\ (grid <> [] -> head grid = Some 0 /\ last grid = Some (5 / 2))
  /\ (length grid = Z.to_nat (Js.ceil (5 / 2 * 4))
      \/ length grid = S (Z.to_nat (Js.ceil (5 / 2 * 4))))
  /\ (5 / 2 = 0 -> grid = []).
Proof.
  apply (getSampledTimeInstants_grid (H := sampleConstants)
           (emptyShow (5 / 2))); simpl; lra.
Defined.

Lemma getSampledTimeInstants_negative_duration_witness :
  let state := emptyShow (-1) in
  let grid := getSampledTimeInstants (H := sampleConstants) state in
  let n := Js.ceil (-1 * 4) in
  (n <= 0)%Z
  /\ length grid = Z.to_nat (- n)
  /\ (forall i : nat, (i < length grid)%nat ->
        grid !! i = Some (IZR (- Z.of_nat i) / 4))
  /\ (grid = [] <-> -1 < -1 * 4).
Proof.
  apply (getSampledTimeInstants_negative_duration (H := sampleConstants)
           (emptyShow (-1))); simpl; lra.
Defined.

(** C3, as stated, fails: at four samples per second the duration [-1] is
    not rejected, a grid of four instants is generated for it. *)
Lemma negative_duration_yields_grid :
  getSampledTimeInstants (H := sampleConstants) (emptyShow (-1))
  = [0 / 4; -1 / 4; -2 / 4; -3 / 4].
Proof.
  unfold getSampledTimeInstants, getShowDuration. simpl showDuration.
  destruct (sampledTimeInstants_negative (H := sampleConstants) (-1))
    as [_ ->]; [simpl; lra | lra |].
  simpl SAMPLES_PER_SECOND.
  replace (Js.ceil (-1 * 4)) with (-4)%Z
    by (symmetry; apply Zceil_eq; simpl; lra).
  reflexivity.
Qed.

(** ** Validation settings *)

Section SettingsFacts.
Context `{Constants}.

Lemma validationSettings_legacy (v : object) (type : string) :
  isUndefined (prop v "max_altitude") = false ->
  validationSettings (Some v) type =
    <["minDistance" := prop v "min_distance"]>
      (<["maxVelocityZ" := prop v "max_velocity_z"]>
         (<["maxVelocityXY" := prop v "max_velocity_xy"]>
            (<["maxAltitude" := prop v "max_altitude"]>
               (environmentDefaults type)))).
Proof. intros Hv. unfold validationSettings. rewrite Hv. reflexivity. Qed.

Lemma validationSettings_canonical (v : object) (type : string) :
  isUndefined (prop v "max_altitude") = true ->
  validationSettings (Some v) type
  = delete "__proto__" v ∪ environmentDefaults type.
Proof. intros Hv. unfold validationSettings. rewrite Hv. reflexivity. Qed.

Lemma not_canonical_key (key : string) :
  key ∉ canonicalKeys ->
  key <> "maxAltitude" /\ key <> "maxVelocityXY"
  /\ key <> "maxVelocityZ" /\ key <> "minDistance".
Proof.
  intros Hk. unfold canonicalKeys in Hk.
  repeat split; intros ->; apply Hk; set_solver.
Qed.

(** C5.  The legacy input with all four keys, in the outdoor environment,
    resolves to [maxAltitude] 50, [maxVelocityXY] 5, [maxVelocityZ] 3 and
    [minDistance] 2: all four defaults are overridden, and no other
    property of the defaults is touched. *)
Theorem getValidationSettings_legacy_input
    (duration : R) (players : list TrajectoryPlayer) :
  let state := {| showDuration := duration;
                  showEnvironmentType := "outdoor";
                  trajectoryPlayers := players;
                  validation := Some legacyInput |} in
  let settings := getValidationSettings state in
  settings !! "maxAltitude" = Some (VNumber 50)
  /\ settings !! "maxVelocityXY" = Some (VNumber 5)
  /\ settings !! "maxVelocityZ" = Some (VNumber 3)
  /\ settings !! "minDistance" = Some (VNumber 2)
  /\ (forall key : string, key ∉ canonicalKeys ->
        settings !! key = environmentDefaults "outdoor" !! key).
Proof.
  intros state settings. subst settings state.
  unfold getValidationSettings, getShowEnvironmentType.
  cbn [validation showEnvironmentType].
  rewrite validationSettings_legacy by reflexivity.
  change (prop legacyInput "max_altitude") with (VNumber 50).
  change (prop legacyInput "max_velocity_xy") with (VNumber 5).
  change (prop legacyInput "max_velocity_z") with (VNumber 3).
  change (prop legacyInput "min_distance") with (VNumber 2).
  repeat split; try (simplify_map_eq; reflexivity).
  intros key Hk. apply not_canonical_key in Hk as (? & ? & ? & ?).
  simplify_map_eq. reflexivity.
Qed.

(** C6.  The canonical input [{maxAltitude: 80}] overrides [maxAltitude]
    only: every other property, [maxVelocityXY], [maxVelocityZ] and
    [minDistance] among them, keeps the value of the environment's
    defaults. *)
Theorem getValidationSettings_canonical_partial
    (duration : R) (type : string) (players : list TrajectoryPlayer) :
  let state := {| showDuration := duration;
                  showEnvironmentType := type;
                  trajectoryPlayers := players;
                  validation := Some canonicalPartialInput |} in
  let settings := getValidationSettings state in
  settings !! "maxAltitude" = Some (VNumber 80)
  /\ settings !! "maxVelocityXY" = environmentDefaults type !! "maxVelocityXY"
  /\ settings !! "maxVelocityZ" = environmentDefaults type !! "maxVelocityZ"
  /\ settings !! "minDistance" = environmentDefaults type !! "minDistance"
  /\ (forall key : string, key <> "maxAltitude" ->
        settings !! key = environmentDefaults type !! key).
Proof.
  intros state settings. subst settings state.
  unfold getValidationSettings, getShowEnvironmentType.
  cbn [validation showEnvironmentType].
  rewrite validationSettings_canonical by reflexivity.
  unfold canonicalPartialInput.
  assert (Hother : forall key : string, key <> "maxAltitude" ->
            (delete "__proto__" {["maxAltitude" := VNumber 80]}
               ∪ environmentDefaults type)
              !! key = environmentDefaults type !! key).
  { intros key Hk. rewrite lookup_union_r; [reflexivity|].
    apply lookup_delete_None. right.
    apply lookup_singleton_ne. congruence. }
  split; [|split; [|split; [|split]]].
  - apply lookup_union_Some_l. rewrite lookup_delete_ne by discriminate.
    apply lookup_singleton_eq.
  - apply Hother. discriminate.
  - apply Hother. discriminate.
  - apply Hother. discriminate.
  - exact Hother.
Qed.

(** C7.  When the legacy key [max_altitude] is defined, the legacy branch
    is taken and each of the four canonical properties is overwritten with
    the value read from its legacy key; a legacy key that is absent reads
    as [undefined], so [maxVelocityXY], [maxVelocityZ] and [minDistance]
    become [undefined] instead of keeping the default. *)
Theorem getValidationSettings_partial_legacy (state : State) (v : object) :
  validation state = Some v ->
  prop v "max_altitude" <> VUndefined ->
  let settings := getValidationSettings state in
  settings !! "maxAltitude" = Some (prop v "max_altitude")
  /\ settings !! "maxVelocityXY" = Some (prop v "max_velocity_xy")
  /\ settings !! "maxVelocityZ" = Some (prop v "max_velocity_z")
  /\ settings !! "minDistance" = Some (prop v "min_distance")
  /\ (v !! "max_velocity_xy" = None ->
        settings !! "maxVelocityXY" = Some VUndefined)
  /\ (v !! "max_velocity_z" = None ->
        settings !! "maxVelocityZ" = Some VUndefined)
  /\ (v !! "min_distance" = None ->
        settings !! "minDistance" = Some VUndefined).
Proof.
  intros Hv Halt settings. subst settings.
  unfold getValidationSettings. rewrite Hv.
  rewrite validationSettings_legacy
    by (destruct (prop v "max_altitude"); [contradiction|reflexivity..]).
  assert (Hxy : forall d : object,
            (<["minDistance" := prop v "min_distance"]>
               (<["maxVelocityZ" := prop v "max_velocity_z"]>
                  (<["maxVelocityXY" := prop v "max_velocity_xy"]> d)))
              !! "maxVelocityXY" = Some (prop v "max_velocity_xy"))
    by (intros d; simplify_map_eq; reflexivity).
  assert (Hz : forall d : object,
            (<["minDistance" := prop v "min_distance"]>
               (<["maxVelocityZ" := prop v "max_velocity_z"]> d))
              !! "maxVelocityZ" = Some (prop v "max_velocity_z"))
    by (intros d; simplify_map_eq; reflexivity).
  assert (Hmin : forall d : object,
            (<["minDistance" := prop v "min_distance"]> d)
              !! "minDistance" = Some (prop v "min_distance"))
    by (intros d; simplify_map_eq; reflexivity).
  split; [simplify_map_eq; reflexivity|].
  split; [apply Hxy|]. split; [apply Hz|]. split; [apply Hmin|].
  split; [|split]; intros Habsent.
  - rewrite Hxy. unfold prop. rewrite Habsent. reflexivity.
  - rewrite Hz. unfold prop. rewrite Habsent. reflexivity.
  - rewrite Hmin. unfold prop. rewrite Habsent. reflexivity.
Qed.

End SettingsFacts.

Lemma getValidationSettings_partial_legacy_witness :
  let v : object := {["max_altitude" := VNumber 50]} in
  let state := {| showDuration := 10;
                  showEnvironmentType := "outdoor";
                  trajectoryPlayers := [];
                  validation := Some v |} in
  let settings := getValidationSettings (H := sampleConstants) state in
  settings !! "maxAltitude" = Some (prop v "max_altitude")
  /\ settings !! "maxVelocityXY" = Some (prop v "max_velocity_xy")
  /\ settings !! "maxVelocityZ" = Some (prop v "max_velocity_z")
  /\ settings !! "minDistance" = Some (prop v "min_distance")
  /\ (v !! "max_velocity_xy" = None ->
        settings !! "maxVelocityXY" = Some VUndefined)
  /\ (v !! "max_velocity_z" = None ->
        settings !! "maxVelocityZ" = Some VUndefined)
  /\ (v !! "min_distance" = None ->
        settings !! "minDistance" = Some VUndefined).
Proof.
  intros v state.
  apply (getValidationSettings_partial_legacy (H := sampleConstants) state v).
  - reflexivity.
  - discriminate.
Defined.

(** ** The closest pair *)

Section ClosestPairFacts.
Import ClosestPair.

Lemma leastOf_iff (seen seen' : Point3D * Point3D -> Prop) best :
  (forall pr, seen pr <-> seen' pr) -> leastOf seen best -> leastOf seen' best.
Proof.
  intros Heq [Hmin Hin]. split.
  - intros pr Hpr. apply Hmin, Heq, Hpr.
  - intros b Hb. apply Heq, Hin, Hb.
Qed.

Lemma closer_least seen candidate best :
  leastOf seen best ->
  leastOf (fun pr => seen pr \/ pr = candidate) (closer candidate best).
Proof.
  intros [Hmin Hin]. unfold closer. destruct best as [b|].
  - destruct (Rlt_dec _ _) as [Hlt|Hge]; split.
    + intros pr [Hpr| ->].
      * destruct (Hmin pr Hpr) as (b' & Hb' & Hle).
        injection Hb' as <-. exists candidate. split; [reflexivity|lra].
      * exists candidate. split; [reflexivity|lra].
    + intros b' Hb'. injection Hb' as <-. right. reflexivity.
    + intros pr [Hpr| ->].
      * apply Hmin, Hpr.
      * exists b. split; [reflexivity|lra].
    + intros b' Hb'. left. apply Hin, Hb'.
  - split.
    + intros pr [Hpr| ->].
      * destruct (Hmin pr Hpr) as (b' & Hb' & _). discriminate.
      * exists candidate. split; [reflexivity|lra].
    + intros b' Hb'. injection Hb' as <-. right. reflexivity.
Qed.

Lemma scanFrom_least p later : forall seen best,
  leastOf seen best ->
  leastOf (fun pr => seen pr \/ exists q, q ∈ later /\ pr = (p, q))
          (scanFrom p later best).
Proof.
  induction later as [|q later IH]; intros seen best Hbest; simpl.
  - apply (leastOf_iff seen); [|assumption].
    intros pr. split; [auto|]. intros [Hpr|(q & Hq & _)]; [assumption|].
    inversion Hq.
  - pose proof (IH _ _ (closer_least _ (p, q) _ Hbest)) as Hleast.
    revert Hleast. apply leastOf_iff.
    intros pr. split.
    + intros [[Hpr| ->]|(q' & Hq' & ->)]; [auto|right..].
      * exists q. split; [left|reflexivity].
      * exists q'. split; [right; assumption|reflexivity].
    + intros [Hpr|(q' & Hq' & ->)]; [auto|].
      apply elem_of_cons in Hq' as [->|Hq']; [auto|].
      right. exists q'. auto.
Qed.

Lemma orderedPair_cons p later pr :
  orderedPair (p :: later) pr <->
  (exists q, q ∈ later /\ pr = (p, q)) \/ orderedPair later pr.
Proof.
  destruct pr as [a b]. unfold orderedPair; simpl. split.
  - intros (i & j & Hij & Hi & Hj). destruct j as [|j]; [lia|].
    simpl in Hj. destruct i as [|i]; simpl in Hi.
    + left. exists b. split; [|congruence].
      apply list_elem_of_lookup. exists j. assumption.
    + right. exists i, j. repeat split; [lia|assumption..].
  - intros [(q & Hq & Heq)|(i & j & Hij & Hi & Hj)].
    + injection Heq as -> ->. apply list_elem_of_lookup in Hq as [j Hj].
      exists 0%nat, (S j). repeat split; [lia|assumption].
    + exists (S i), (S j). repeat split; [lia|assumption..].
Qed.

Lemma bruteForce_least points : forall seen best,
  leastOf seen best ->
  leastOf (fun pr => seen pr \/ orderedPair points pr)
          (bruteForce points best).
Proof.
  induction points as [|p later IH]; intros seen best Hbest; simpl.
  - apply (leastOf_iff seen); [|assumption].
    intros pr. split; [auto|]. intros [Hpr|(i & j & _ & Hi & _)]; [assumption|].
    rewrite lookup_nil in Hi. discriminate.
  - pose proof (IH _ _ (scanFrom_least p later _ _ Hbest)) as Hleast.
    revert Hleast. apply leastOf_iff. intros pr.
    rewrite orderedPair_cons. tauto.
Qed.

(** The answer of [getClosestPair] is a pair [i < j] at the least
    distance, whenever the frame has such a pair. *)
Lemma getClosestPair_least points :
  leastOf (orderedPair points) (getClosestPair points).
Proof.
  unfold getClosestPair.
  assert (Hnone : leastOf (fun _ => False) None)
    by (split; [intros pr []|intros b Hb; discriminate]).
  pose proof (bruteForce_least points _ _ Hnone) as Hleast.
  revert Hleast. apply leastOf_iff. intros pr. tauto.
Qed.

Lemma getClosestPair_None points :
  getClosestPair points = None <-> (length points < 2)%nat.
Proof.
  destruct (getClosestPair_least points) as [Hmin Hin]. split.
  - intros Hnone. destruct points as [|p [|q rest]]; simpl; [lia..|].
    destruct (Hmin (p, q)) as (b & Hb & _); [|congruence].
    exists 0%nat, 1%nat. repeat split. lia.
  - intros Hlen. destruct (getClosestPair points) as [b|]; [|reflexivity].
    destruct (Hin b eq_refl) as (i & j & Hij & Hi & Hj).
    apply lookup_lt_Some in Hj. lia.
Qed.

(** The entry stored for a frame of at least two points is the minimum of
    the pairwise distances. *)
Lemma entryOf_getClosestPair_minimal points :
  (2 <= length points)%nat ->
  exists d, entryOf (getClosestPair points) = Distance d
            /\ minimalPairwiseDistance points d.
Proof.
  intros Hlen. destruct (getClosestPair_least points) as [Hmin Hin].
  destruct (getClosestPair points) as [[a b]|] eqn:Hcp.
  - exists (distance a b). split; [reflexivity|].
    destruct (Hin (a, b) eq_refl) as (i & j & Hij & Hi & Hj). split.
    + exists i, j, a, b. repeat split; assumption.
    + intros i' j' p q Hij' Hi' Hj'.
      destruct (Hmin (p, q)) as (b' & Hb' & Hle);
        [exists i', j'; repeat split; assumption|].
      injection Hb' as <-. exact Hle.
  - apply getClosestPair_None in Hcp. lia.
Qed.

End ClosestPairFacts.

(** ** The loops of [getNearestNeighborDistancesForFrames] *)

Section LoopFacts.

Lemma fillFrame_length pbd numberDrones frameIndex frame :
  length (fillFrame pbd numberDrones frameIndex frame) = length frame.
Proof.
  unfold fillFrame. induction numberDrones as [|n IH]; [reflexivity|].
  rewrite seq_S, fold_left_app. simpl. rewrite length_insert. exact IH.
Qed.

Lemma fillFrame_lookup pbd numberDrones frameIndex frame (j : nat) :
  fillFrame pbd numberDrones frameIndex frame !! j =
    if decide (j < numberDrones /\ j < length frame)%nat
    then Some (positionAt pbd j frameIndex) else frame !! j.
Proof.
  induction numberDrones as [|n IH].
  - destruct (decide _) as [Hj|Hj]; [lia|reflexivity].
  - pose proof (fillFrame_length pbd n frameIndex frame) as Hlen.
    unfold fillFrame in *. rewrite seq_S, fold_left_app. simpl.
    rewrite list_lookup_insert, IH, Hlen.
    destruct (decide (n = j /\ _)) as [[-> Hn]|Hn];
      destruct (decide (_ /\ _)) as [Hj|Hj];
      try destruct (decide (_ /\ _)) as [Hj'|Hj'];
      try reflexivity; lia.
Qed.

(** After the inner loop the shared array holds exactly the cells of the
    current frame, whatever it held before. *)
Lemma fillFrame_frameAt pbd frameIndex frame :
  length frame = length pbd ->
  fillFrame pbd (length pbd) frameIndex frame = frameAt pbd frameIndex.
Proof.
  intros Hlen. apply list_eq. intros j.
  rewrite fillFrame_lookup. unfold frameAt. rewrite list_lookup_fmap.
  destruct (decide _) as [Hj|Hj].
  - rewrite lookup_seq_lt by lia. reflexivity.
  - rewrite (lookup_ge_None_2 (seq 0 (length pbd)) j)
      by (rewrite length_seq; lia).
    rewrite (lookup_ge_None_2 frame j) by lia. reflexivity.
Qed.

Lemma frameBody_entryAt pbd result frame frameIndex entry :
  length frame = length pbd ->
  entryAt pbd frameIndex = Some entry ->
  frameBody pbd (length pbd) (result, frame) frameIndex
  = Some (<[frameIndex := entry]> result, frameAt pbd frameIndex).
Proof.
  intros Hlen Hentry. unfold frameBody, entryAt in *.
  rewrite fillFrame_frameAt by assumption.
  destruct (mapM _ (frameAt pbd frameIndex)) as [points|]; simpl in *;
    [|discriminate].
  injection Hentry as <-. reflexivity.
Qed.

Lemma frameAt_length pbd frameIndex :
  length (frameAt pbd frameIndex) = length pbd.
Proof. unfold frameAt. rewrite length_fmap, length_seq. reflexivity. Qed.

(** The outer loop over the frames [a, ..., a + k - 1]: their cells of
    [result] receive the entries of their frames, the others are kept. *)
Lemma forLoop_frames pbd (k : nat) : forall (a : nat) result frame,
  length frame = length pbd ->
  (forall fi : nat, (a <= fi < a + k)%nat -> is_Some (entryAt pbd fi)) ->
  exists result' frame',
    forLoop (frameBody pbd (length pbd)) (seq a k) (result, frame)
    = Some (result', frame')
    /\ length result' = length result
    /\ forall j : nat,
         result' !! j =
           if decide ((a <= j < a + k)%nat /\ (j < length result)%nat)
           then entryAt pbd j else result !! j.
Proof.
  induction k as [|k IH]; intros a result frame Hlen Hall;
    cbn [seq forLoop].
  - exists result, frame. repeat split.
    intros j. destruct (decide _) as [Hj|Hj]; [lia|reflexivity].
  - destruct (Hall a ltac:(lia)) as [entry Hentry].
    rewrite (frameBody_entryAt _ _ _ _ entry Hlen Hentry).
    cbn [mbind option_bind].
    destruct (IH (S a) (<[a := entry]> result) (frameAt pbd a)) as
      (result' & frame' & Hloop & Hlen' & Hlookup).
    { apply frameAt_length. }
    { intros fi Hfi. apply Hall. lia. }
    exists result', frame'. rewrite length_insert in Hlen', Hlookup.
    split; [exact Hloop|]. split; [exact Hlen'|].
    intros j. rewrite Hlookup, list_lookup_insert.
    destruct (decide ((S a <= j < _)%nat /\ _)) as [Hj|Hj];
      destruct (decide ((a <= j < _)%nat /\ _)) as [Hj'|Hj'];
      try destruct (decide (a = j /\ _)) as [[-> Ha]|Ha];
      try reflexivity; try lia.
    symmetry. exact Hentry.
Qed.

(** The combiner as a function of the frames: one entry per instant, the
    entry of index [j] computed from frame [j]. *)
Lemma nearestNeighborDistancesForFrames_entries pbd (times : list R) :
  (forall fi : nat, (fi < length times)%nat -> is_Some (entryAt pbd fi)) ->
  exists distances,
    nearestNeighborDistancesForFrames pbd times = Some distances
    /\ length distances = length times
    /\ forall j : nat, (j < length times)%nat ->
         distances !! j = entryAt pbd j.
Proof.
  intros Hall. unfold nearestNeighborDistancesForFrames.
  destruct (forLoop_frames pbd (length times) 0
              (replicate (length times) Empty)
              (replicate (length pbd) None)) as
    (result' & frame' & Hloop & Hlen' & Hlookup).
  { apply length_replicate. }
  { intros fi Hfi. apply Hall. lia. }
  rewrite Hloop. simpl. exists result'.
  rewrite length_replicate in Hlen', Hlookup.
  split; [reflexivity|]. split; [exact Hlen'|].
  intros j Hj. rewrite Hlookup.
  destruct (decide _) as [_|Hn]; [reflexivity|lia].
Qed.

(** In the selector the positions come from the players, so that every
    drone has a position at every instant: the cells of frame [fi] are the
    positions of the players at instant [fi]. *)
Lemma frameAt_sampled players (samples : list R) (fi : nat) (time : R) :
  samples !! fi = Some time ->
  frameAt (sampledPositionsForDrones players samples) fi
  = Some <$> positionsAtTime players time.
Proof.
  intros Htime. apply list_eq. intros k.
  unfold frameAt, positionsAtTime, sampledPositionsForDrones, positionAt.
  rewrite !list_lookup_fmap, length_fmap.
  destruct (players !! k) as [player|] eqn:Hk.
  - rewrite lookup_seq_lt by (apply lookup_lt_Some in Hk; exact Hk).
    simpl. rewrite list_lookup_fmap, Hk. simpl.
    rewrite list_lookup_fmap, Htime. reflexivity.
  - apply lookup_ge_None in Hk.
    rewrite (lookup_ge_None_2 (seq 0 (length players)) k)
      by (rewrite length_seq; exact Hk).
    reflexivity.
Qed.

Lemma entryAt_sampled players (samples : list R) (fi : nat) (time : R) :
  samples !! fi = Some time ->
  entryAt (sampledPositionsForDrones players samples) fi
  = Some (entryOf (ClosestPair.getClosestPair
                     (positionsAtTime players time))).
Proof.
  intros Htime. unfold entryAt.
  rewrite (frameAt_sampled _ _ _ _ Htime).
  rewrite mapM_fmap_Some by reflexivity. reflexivity.
Qed.

(** The selector never raises, and its entry of index [fi] is the entry of
    the positions of the players at instant [fi]. *)
Lemma sampled_nearestNeighborDistances players (samples : list R) :
  exists distances,
    nearestNeighborDistancesForFrames
      (sampledPositionsForDrones players samples) samples = Some distances
    /\ length distances = length samples
    /\ forall (fi : nat) (time : R), samples !! fi = Some time ->
         distances !! fi
         = Some (entryOf (ClosestPair.getClosestPair
                            (positionsAtTime players time))).
Proof.
  destruct (nearestNeighborDistancesForFrames_entries
              (sampledPositionsForDrones players samples) samples) as
    (distances & Heq & Hlen & Hlookup).
  { intros fi Hfi. apply lookup_lt_is_Some_2 in Hfi as [time Htime].
    rewrite (entryAt_sampled _ _ _ _ Htime). eauto. }
  exists distances. split; [exact Heq|]. split; [exact Hlen|].
  intros fi time Htime. rewrite Hlookup by (eapply lookup_lt_Some; eauto).
  apply entryAt_sampled, Htime.
Qed.

End LoopFacts.

(** ** The derived sequences and the distances of the selectors *)

(** The grid of a one-second show at four samples per second. *)
Lemma oneSecondGrid :
  sampledTimeInstants (H := sampleConstants) 1
  = [0 / 4; 1 / 4; 2 / 4; 3 / 4; 1].
Proof.
  rewrite (sampledTimeInstants_nonneg (H := sampleConstants) 1)
    by (simpl; lra).
  simpl SAMPLES_PER_SECOND.
  replace (Js.ceil (1 * 4)) with 4%Z by (symmetry; apply Zceil_eq; simpl; lra).
  reflexivity.
Qed.

Lemma hypot2_3_4 : Js.hypot2 3 4 = 5.
Proof.
  unfold Js.hypot2. replace (3 * 3 + 4 * 4) with (5 * 5) by lra.
  apply sqrt_square. lra.
Qed.

Section SelectorFacts.
Context `{Constants}.

Lemma positionsAtTime_length players time :
  length (positionsAtTime players time) = length players.
Proof. unfold positionsAtTime. apply length_fmap. Qed.

Lemma entryOf_Null closestPair :
  entryOf closestPair = Null <-> closestPair = None.
Proof.
  destruct closestPair as [[a b]|]; simpl; split; intros Heq;
    (reflexivity || discriminate).
Qed.

(** C1.  For every frame with at least two drone positions, the entry that
    [getNearestNeighborDistancesForFrames] stores is a distance, and this
    distance is the minimum, over all pairs [i < j] of the frame's points,
    of [sqrt(dx² + dy² + dz²)]. *)
Theorem getNearestNeighborDistancesForFrames_minimum
    (state : State) (frameIndex : nat) (time : R) :
  getSampledTimeInstants state !! frameIndex = Some time ->
  (2 <= length (getTrajectoryPlayers state))%nat ->
  exists distances d,
    getNearestNeighborDistancesForFrames state = Some distances
    /\ distances !! frameIndex = Some (Distance d)
    /\ minimalPairwiseDistance
         (positionsAtTime (getTrajectoryPlayers state) time) d.
Proof.
  intros Htime Hplayers.
  destruct (sampled_nearestNeighborDistances (getTrajectoryPlayers state)
              (getSampledTimeInstants state)) as
    (distances & Heq & _ & Hlookup).
  destruct (entryOf_getClosestPair_minimal
              (positionsAtTime (getTrajectoryPlayers state) time)) as
    (d & Hd & Hmin).
  { rewrite positionsAtTime_length. exact Hplayers. }
  exists distances, d. split; [exact Heq|]. split; [|exact Hmin].
  rewrite (Hlookup _ _ Htime), Hd. reflexivity.
Qed.

(** C4.  No frame is an error, and the entry of a frame is [null] exactly
    when the frame has fewer than two drone positions. *)
Theorem getNearestNeighborDistancesForFrames_null (state : State) :
  exists distances,
    getNearestNeighborDistancesForFrames state = Some distances
    /\ length distances = length (getSampledTimeInstants state)
    /\ forall (frameIndex : nat) (entry : distanceEntry),
         distances !! frameIndex = Some entry ->
         (entry = Null <-> (length (getTrajectoryPlayers state) < 2)%nat).
Proof.
  destruct (sampled_nearestNeighborDistances (getTrajectoryPlayers state)
              (getSampledTimeInstants state)) as
    (distances & Heq & Hlen & Hlookup).
  exists distances. split; [exact Heq|]. split; [exact Hlen|].
  intros frameIndex entry Hentry.
  assert (Hlt : (frameIndex < length (getSampledTimeInstants state))%nat)
    by (rewrite <- Hlen; eapply lookup_lt_Some; exact Hentry).
  apply lookup_lt_is_Some_2 in Hlt as [time Htime].
  rewrite (Hlookup _ _ Htime) in Hentry. injection Hentry as <-.
  rewrite entryOf_Null, getClosestPair_None, positionsAtTime_length.
  reflexivity.
Qed.

(** C8.  For a sampled velocity [v], the entry of the horizontal speeds is
    the Euclidean norm of [(v.x, v.y)] and the entry of the vertical speeds
    is [v.z] itself, sign included; for the velocity [(3, 4, 0)] they are
    5 and 0. *)
Theorem sampled_speeds_of_velocity
    (state : State) (droneIndex sampleIndex : nat)
    (velocities : list Point3D) (v : Point3D) :
  getSampledVelocitiesForDrones state !! droneIndex = Some velocities ->
  velocities !! sampleIndex = Some v ->
  exists horizontal vertical,
    getSampledHorizontalVelocitiesForDrones state !! droneIndex
      = Some horizontal
    /\ getSampledVerticalVelocitiesForDrones state !! droneIndex
      = Some vertical
    /\ horizontal !! sampleIndex = Some (sqrt (x v * x v + y v * y v))
    /\ vertical !! sampleIndex = Some (z v)
    /\ (v = mkPoint 3 4 0 ->
          horizontal !! sampleIndex = Some 5
          /\ vertical !! sampleIndex = Some 0).
Proof.
  intros Hdrone Hsample.
  unfold getSampledHorizontalVelocitiesForDrones,
    getSampledVerticalVelocitiesForDrones,
    sampledHorizontalVelocitiesForDrones, sampledVerticalVelocitiesForDrones.
  rewrite !list_lookup_fmap, Hdrone. simpl.
  eexists _, _. split; [reflexivity|]. split; [reflexivity|].
  rewrite !list_lookup_fmap, Hsample. simpl.
  split; [reflexivity|]. split; [reflexivity|].
  intros ->. simpl. rewrite hypot2_3_4. split; reflexivity.
Qed.

(** C9.  Every derived sequence has one entry per sampled instant, index
    for index: the altitude, horizontal-speed and vertical-speed sequences
    of every drone and the sequence of closest-pair distances have the
    length of the grid, and their entry of index [i] is computed from the
    evaluation of the players at the instant of index [i].  This holds for
    every duration, the non-negative ones included. *)
Theorem derived_sequences_aligned (state : State) :
  let grid := getSampledTimeInstants state in
  let players := getTrajectoryPlayers state in
  length (getSampledAltitudesForDrones state) = length players
  /\ length (getSampledHorizontalVelocitiesForDrones state) = length players
  /\ length (getSampledVerticalVelocitiesForDrones state) = length players
  /\ (forall (droneIndex : nat) (player : TrajectoryPlayer),
        players !! droneIndex = Some player ->
        exists altitudes horizontal vertical,
          getSampledAltitudesForDrones state !! droneIndex = Some altitudes
          /\ getSampledHorizontalVelocitiesForDrones state !! droneIndex
             = Some horizontal
          /\ getSampledVerticalVelocitiesForDrones state !! droneIndex
             = Some vertical
          /\ length altitudes = length grid
          /\ length horizontal = length grid
          /\ length vertical = length grid
          /\ forall (i : nat) (time : R), grid !! i = Some time ->
               altitudes !! i = Some (z (getPositionAt player time))
               /\ horizontal !! i
                  = Some (Js.hypot2 (x (getVelocityAt player time))
                                    (y (getVelocityAt player time)))
               /\ vertical !! i = Some (z (getVelocityAt player time)))
  /\ exists distances,
       getNearestNeighborDistancesForFrames state = Some distances
       /\ length distances = length grid
       /\ forall (i : nat) (time : R), grid !! i = Some time ->
            distances !! i
            = Some (entryOf (ClosestPair.getClosestPair
                               (positionsAtTime players time))).
Proof.
  intros grid players.
  unfold getSampledAltitudesForDrones,
    getSampledHorizontalVelocitiesForDrones,
    getSampledVerticalVelocitiesForDrones,
    sampledAltitudesForDrones, sampledHorizontalVelocitiesForDrones,
    sampledVerticalVelocitiesForDrones, getSampledPositionsForDrones,
    getSampledVelocitiesForDrones, sampledPositionsForDrones,
    sampledVelocitiesForDrones.
  fold grid players. rewrite !length_fmap.
  split; [reflexivity|]. split; [reflexivity|]. split; [reflexivity|].
  split.
  - intros droneIndex player Hplayer.
    rewrite !list_lookup_fmap, Hplayer. simpl.
    eexists _, _, _. split; [reflexivity|]. split; [reflexivity|].
    split; [reflexivity|]. rewrite !length_fmap.
    split; [reflexivity|]. split; [reflexivity|]. split; [reflexivity|].
    intros i time Htime. rewrite !list_lookup_fmap, Htime. simpl.
    repeat split; reflexivity.
  - apply sampled_nearestNeighborDistances.
Qed.

End SelectorFacts.

Lemma twoDroneShow_first_instant :
  getSampledTimeInstants (H := sampleConstants) twoDroneShow !! 0%nat
  = Some (0 / 4).
Proof.
  unfold getSampledTimeInstants, getShowDuration.
  cbn [showDuration twoDroneShow]. rewrite oneSecondGrid. reflexivity.
Qed.

Lemma getNearestNeighborDistancesForFrames_minimum_witness :
  exists distances d,
    getNearestNeighborDistancesForFrames (H := sampleConstants) twoDroneShow
    = Some distances
    /\ distances !! 0%nat = Some (Distance d)
    /\ minimalPairwiseDistance
         (positionsAtTime (getTrajectoryPlayers twoDroneShow) (0 / 4)) d.
Proof.
  apply (getNearestNeighborDistancesForFrames_minimum (H := sampleConstants)
           twoDroneShow 0 (0 / 4)).
  - exact twoDroneShow_first_instant.
  - simpl. lia.
Defined.

Lemma sampled_speeds_of_velocity_witness :
  exists horizontal vertical,
    getSampledHorizontalVelocitiesForDrones (H := sampleConstants)
      twoDroneShow !! 0%nat = Some horizontal
    /\ getSampledVerticalVelocitiesForDrones (H := sampleConstants)
         twoDroneShow !! 0%nat = Some vertical
    /\ horizontal !! 0%nat = Some (sqrt (3 * 3 + 4 * 4))
    /\ vertical !! 0%nat = Some 0
    /\ (mkPoint 3 4 0 = mkPoint 3 4 0 ->
          horizontal !! 0%nat = Some 5 /\ vertical !! 0%nat = Some 0).
Proof.
  apply (sampled_speeds_of_velocity (H := sampleConstants) twoDroneShow 0 0
           ((fun _ => mkPoint 3 4 0)
              <$> getSampledTimeInstants (H := sampleConstants) twoDroneShow)
           (mkPoint 3 4 0)).
  - reflexivity.
  - rewrite list_lookup_fmap, twoDroneShow_first_instant. reflexivity.
Defined.

(** ** The worked examples of the specification *)

(** A show of 2.5 seconds at four samples per second: ten uniform samples
    and the trailing duration. *)
Example grid_of_two_and_a_half_seconds :
  sampledTimeInstants (H := sampleConstants) (5 / 2)
  = [0 / 4; 1 / 4; 2 / 4; 3 / 4; 4 / 4; 5 / 4; 6 / 4; 7 / 4; 8 / 4; 9 / 4;
     5 / 2].
Proof.
  rewrite (sampledTimeInstants_nonneg (H := sampleConstants) (5 / 2))
    by (simpl; lra).
  simpl SAMPLES_PER_SECOND.
  replace (Js.ceil (5 / 2 * 4)) with 10%Z
    by (symmetry; apply Zceil_eq; simpl; lra).
  reflexivity.
Qed.

Example closest_pair_of_no_point : ClosestPair.getClosestPair [] = None.
Proof. reflexivity. Qed.

Example closest_pair_of_one_point :
  ClosestPair.getClosestPair [mkPoint 1 2 3] = None.
Proof. reflexivity. Qed.

(** Two coincident points and a third one: the distance stored is 0. *)
Example closest_pair_of_coincident_points :
  entryOf (ClosestPair.getClosestPair
             [mkPoint 0 0 0; mkPoint 0 0 0; mkPoint 5 0 0])
  = Distance 0.
Proof.
  destruct (entryOf_getClosestPair_minimal
              [mkPoint 0 0 0; mkPoint 0 0 0; mkPoint 5 0 0]) as
    (d & -> & (i & j & p & q & _ & _ & _ & Hd) & Hmin); [simpl; lia|].
  f_equal. apply Rle_antisym.
  - specialize (Hmin 0%nat 1%nat (mkPoint 0 0 0) (mkPoint 0 0 0)
                  ltac:(lia) eq_refl eq_refl).
    simpl in Hmin.
    replace ((0 - 0) * (0 - 0) + (0 - 0) * (0 - 0) + (0 - 0) * (0 - 0))
      with 0 in Hmin by lra.
    rewrite sqrt_0 in Hmin. exact Hmin.
  - rewrite Hd. apply sqrt_pos.
Qed.

(** * Further properties of the selectors *)

(** ** The selection and its chart indices *)

Section SelectionFacts.

Lemma assignProperty_lookup {V : Type} (o : gmap string V)
    (key key' : string) (value : V) :
  key' <> "__proto__" ->
  assignProperty o key value !! key'
  = if decide (key = key') then Some value else o !! key'.
Proof.
  intros Hkey'. unfold assignProperty.
  destruct (decide (key = "__proto__")) as [->|Hkey].
  - destruct (decide ("__proto__" = key')) as [<-|_];
      [contradiction|reflexivity].
  - destruct (decide (key = key')) as [->|Hne].
    + apply lookup_insert_eq.
    + apply lookup_insert_ne. exact Hne.
Qed.

Lemma assignProperty_lookup_proto {V : Type} (o : gmap string V)
    (key : string) (value : V) :
  assignProperty o key value !! "__proto__" = o !! "__proto__".
Proof.
  unfold assignProperty. destruct (decide (key = "__proto__")) as [_|Hkey];
    [reflexivity|].
  apply lookup_insert_ne. exact Hkey.
Qed.

(** The assignments of the loop never give the mapping a property
    ["__proto__"]. *)
Lemma forEachIndexed_mapping_proto (items : list string) :
  forall (start : nat) (mapping : gmap string nat),
    forEachIndexed (fun mapping itemId index =>
                      assignProperty mapping itemId index)
                   items start mapping !! "__proto__"
    = mapping !! "__proto__".
Proof.
  induction items as [|item rest IH]; intros start mapping; simpl;
    [reflexivity|].
  rewrite IH. apply assignProperty_lookup_proto.
Qed.

Lemma forEachIndexed_mapping_lookup (items : list string) :
  forall (start : nat) (mapping : gmap string nat) (itemId : string) (i : nat),
    itemId <> "__proto__" ->
    forEachIndexed (fun mapping itemId index =>
                      assignProperty mapping itemId index)
                   items start mapping !! itemId = Some i
    <-> (exists j : nat, i = (start + j)%nat /\ lastPositionOf items itemId j)
        \/ ((itemId ∉ items) /\ mapping !! itemId = Some i).
Proof.
  induction items as [|item rest IH]; intros start mapping itemId i Hproto;
    simpl.
  - split.
    + intros Hm. right. split; [apply not_elem_of_nil|exact Hm].
    + intros [(j & _ & Hj & _)|[_ Hm]]; [|exact Hm].
      rewrite lookup_nil in Hj. discriminate.
  - rewrite (IH _ _ _ _ Hproto), (assignProperty_lookup _ _ _ _ Hproto).
    split.
    + intros [(j & -> & Hj & Hlast)|[Hnotin Hm]].
      * left. exists (S j). split; [lia|]. split; [exact Hj|].
        intros later Hlater. destruct later as [|later]; [lia|].
        simpl. apply Hlast. lia.
      * destruct (decide (item = itemId)) as [->|Hne].
        -- injection Hm as <-.
           left. exists 0%nat. split; [lia|]. split; [reflexivity|].
           intros later Hlater Hl. destruct later as [|later]; [lia|].
           simpl in Hl. apply Hnotin, list_elem_of_lookup. eauto.
        -- right. split; [|exact Hm].
           intros Hin. apply elem_of_cons in Hin as [->|Hin]; [|contradiction].
           apply Hne. reflexivity.
    + intros [(j & -> & Hj & Hlast)|[Hnotin Hm]].
      * destruct j as [|j].
        -- simpl in Hj. injection Hj as ->. right. split.
           ++ intros Hin. apply list_elem_of_lookup in Hin as [k Hk].
              apply (Hlast (S k)); [lia|exact Hk].
           ++ destruct (decide (itemId = itemId)) as [_|Hne];
                [f_equal; lia|contradiction].
        -- left. exists j. split; [lia|]. split; [exact Hj|].
           intros later Hlater. apply (Hlast (S later)). lia.
      * right. split.
        -- intros Hin. apply Hnotin. apply elem_of_cons. right. exact Hin.
        -- destruct (decide (item = itemId)) as [->|Hne]; [|exact Hm].
           exfalso. apply Hnotin. apply elem_of_cons. left. reflexivity.
Qed.

Lemma selectionToChartIndexMapping_lookup
    (items : list string) (itemId : string) (index : nat) :
  selectionToChartIndexMapping items !! itemId = Some index
  <-> itemId <> "__proto__" /\ lastPositionOf items itemId index.
Proof.
  unfold selectionToChartIndexMapping.
  destruct (decide (itemId = "__proto__")) as [->|Hproto].
  - rewrite forEachIndexed_mapping_proto, lookup_empty. split.
    + discriminate.
    + intros [Hne _]. contradiction.
  - rewrite (forEachIndexed_mapping_lookup _ _ _ _ _ Hproto). split.
    + intros [(j & -> & Hlast)|[_ Hm]]; [split; assumption|].
      rewrite lookup_empty in Hm. discriminate.
    + intros [_ Hlast]. left. exists index. split; [reflexivity|exact Hlast].
Qed.

(** X1.  [getSelectionToChartIndexMapping] maps an item to an index exactly
    when the item is not ["__proto__"] and the index is the last position of
    the item in the selection: an item selected several times gets the index
    of its last occurrence, and the assignment [mapping["__proto__"] = index]
    leaves no property behind. *)
Theorem getSelectionToChartIndexMapping_last_position
    (slice : ValidationSlice) (itemId : string) (index : nat) :
  getSelectionToChartIndexMapping slice !! itemId = Some index
  <-> itemId <> "__proto__"
      /\ lastPositionOf (getSelection slice) itemId index.
Proof. apply selectionToChartIndexMapping_lookup. Qed.

Lemma lastPositionOf_exists (items : list string) (itemId : string) :
  itemId ∈ items -> exists index, lastPositionOf items itemId index.
Proof.
  induction items as [|item rest IH]; intros Hin; [inversion Hin|].
  destruct (decide (itemId ∈ rest)) as [Hrest|Hrest].
  - destruct (IH Hrest) as (j & Hj & Hlast). exists (S j).
    split; [exact Hj|]. intros later Hlater.
    destruct later as [|later]; [lia|]. simpl. apply Hlast. lia.
  - apply elem_of_cons in Hin as [->|Hin]; [|contradiction].
    exists 0%nat. split; [reflexivity|].
    intros later Hlater Hl. destruct later as [|later]; [lia|].
    simpl in Hl. apply Hrest, list_elem_of_lookup. eauto.
Qed.

Lemma selectionToChartIndexMapping_is_Some
    (items : list string) (itemId : string) :
  is_Some (selectionToChartIndexMapping items !! itemId)
  <-> itemId ∈ items /\ itemId <> "__proto__".
Proof.
  split.
  - intros [index Hm].
    apply selectionToChartIndexMapping_lookup in Hm as [Hproto [Hm _]].
    split; [|exact Hproto]. apply list_elem_of_lookup. eauto.
  - intros [Hin Hproto].
    destruct (lastPositionOf_exists _ _ Hin) as [index Hlast].
    exists index. apply selectionToChartIndexMapping_lookup.
    split; assumption.
Qed.

(** X2.  [getSelectionToChartIndexMapping] has a chart index for an item
    exactly when [isItemSelected] accepts the item and the item is not
    ["__proto__"]. *)
Theorem isItemSelected_iff_mapped (slice : ValidationSlice) (itemId : string) :
  is_Some (getSelectionToChartIndexMapping slice !! itemId)
  <-> isItemSelected slice itemId = true /\ itemId <> "__proto__".
Proof.
  unfold isItemSelected, getSelectionToChartIndexMapping.
  rewrite bool_decide_eq_true. apply selectionToChartIndexMapping_is_Some.
Qed.

Lemma selectionToChartIndexMapping_dom (items : list string) :
  dom (selectionToChartIndexMapping items)
  = list_to_set (filter (fun itemId => itemId <> "__proto__") items).
Proof.
  apply set_eq. intros itemId.
  rewrite elem_of_dom, elem_of_list_to_set, list_elem_of_filter.
  rewrite selectionToChartIndexMapping_is_Some. tauto.
Qed.

(** X3.  When no item is selected twice, the mapping is the inverse of the
    selection on the items other than ["__proto__"]: such an item sits at
    position [index] exactly when the mapping sends it to [index]; and the
    mapping has one entry for each of these items. *)
Theorem getSelectionToChartIndexMapping_inverse (slice : ValidationSlice) :
  NoDup (getSelection slice) ->
  (forall (itemId : string) (index : nat),
     itemId <> "__proto__" ->
     (getSelection slice !! index = Some itemId
      <-> getSelectionToChartIndexMapping slice !! itemId = Some index))
  /\ size (getSelectionToChartIndexMapping slice)
     = length (filter (fun itemId => itemId <> "__proto__")
                      (getSelection slice)).
Proof.
  intros Hnodup. split.
  - intros itemId index Hproto.
    unfold getSelectionToChartIndexMapping.
    rewrite selectionToChartIndexMapping_lookup. split.
    + intros Hi. split; [exact Hproto|]. split; [exact Hi|].
      intros later Hlater Hl.
      pose proof (NoDup_lookup _ _ _ _ Hnodup Hi Hl). lia.
    + intros [_ [Hi _]]. exact Hi.
  - unfold getSelectionToChartIndexMapping.
    rewrite <- size_dom, selectionToChartIndexMapping_dom.
    apply size_list_to_set, NoDup_filter. exact Hnodup.
Qed.

(** X4.  [isSelectionEmpty] holds exactly when [isItemSelected] rejects
    every item, and then the mapping of [getSelectionToChartIndexMapping] is
    empty; the mapping is empty exactly when no item other than
    ["__proto__"] is selected; a selection that is [undefined] counts as
    empty. *)
Theorem isSelectionEmpty_iff (slice : ValidationSlice) :
  (isSelectionEmpty slice = true
   <-> forall itemId : string, isItemSelected slice itemId = false)
  /\ (isSelectionEmpty slice = true
      -> getSelectionToChartIndexMapping slice = ∅)
  /\ (getSelectionToChartIndexMapping slice = ∅
      <-> forall itemId : string,
            isItemSelected slice itemId = true -> itemId = "__proto__")
  /\ (selection slice = None -> isSelectionEmpty slice = true).
Proof.
  unfold isSelectionEmpty, isItemSelected, getSelectionToChartIndexMapping.
  rewrite Nat.eqb_eq, length_zero_iff_nil.
  split; [|split; [|split]].
  - split.
    + intros -> itemId. apply bool_decide_eq_false, not_elem_of_nil.
    + intros Hnone. destruct (getSelection slice) as [|item rest];
        [reflexivity|].
      specialize (Hnone item). apply bool_decide_eq_false in Hnone.
      exfalso. apply Hnone. apply elem_of_cons. left. reflexivity.
  - intros ->. reflexivity.
  - split.
    + intros Hempty itemId Hin. apply bool_decide_eq_true in Hin.
      destruct (decide (itemId = "__proto__")) as [Hp|Hp]; [exact Hp|].
      assert (Hsome : is_Some (selectionToChartIndexMapping
                                 (getSelection slice) !! itemId))
        by (apply selectionToChartIndexMapping_is_Some; split; assumption).
      rewrite Hempty, lookup_empty in Hsome. destruct Hsome as [? Hsome].
      discriminate.
    + intros Hall. apply map_eq. intros itemId. rewrite lookup_empty.
      apply eq_None_not_Some. intros Hsome.
      apply selectionToChartIndexMapping_is_Some in Hsome as [Hin Hp].
      apply Hp, Hall, bool_decide_eq_true. exact Hin.
  - unfold getSelection. intros ->. reflexivity.
Qed.

End SelectionFacts.

Lemma getSelectionToChartIndexMapping_inverse_witness :
  let slice := {| selection := Some ["__proto__"; "drone-1"; "drone-7"];
                  visiblePanels := [] |} in
  (forall (itemId : string) (index : nat),
     itemId <> "__proto__" ->
     (getSelection slice !! index = Some itemId
      <-> getSelectionToChartIndexMapping slice !! itemId = Some index))
  /\ size (getSelectionToChartIndexMapping slice)
     = length (filter (fun itemId => itemId <> "__proto__")
                      (getSelection slice)).
Proof.
  intros slice. apply (getSelectionToChartIndexMapping_inverse slice).
  apply (bool_decide_unpack (NoDup (getSelection slice))).
  vm_compute. exact I.
Defined.

(** An item selected twice is charted at its last position, and
    ["__proto__"] is not charted. *)
Example sampleSlice_mapping :
  getSelectionToChartIndexMapping sampleSlice !! "drone-1" = Some 2%nat
  /\ getSelectionToChartIndexMapping sampleSlice !! "drone-7" = Some 1%nat
  /\ getSelectionToChartIndexMapping sampleSlice !! "drone-3" = None
  /\ selectionToChartIndexMapping ["__proto__"; "a"] = {["a" := 1%nat]}.
Proof. repeat split; vm_compute; reflexivity. Qed.

(** ** Validation thresholds *)

Section ThresholdFacts.
Context `{Constants}.

Lemma validationSettings_merge (raw : option object) (type : string) :
  prop (default ∅ raw) "max_altitude" = VUndefined ->
  validationSettings raw type
  = delete "__proto__" (default ∅ raw) ∪ environmentDefaults type.
Proof.
  intros Hraw. destruct raw as [v|].
  - change (prop v "max_altitude" = VUndefined) in Hraw.
    rewrite validationSettings_canonical by (rewrite Hraw; reflexivity).
    reflexivity.
  - unfold validationSettings, objectAssign. fold (environmentDefaults type).
    cbn [default]. rewrite delete_empty, (left_id_L ∅ (∪)). reflexivity.
Qed.

Lemma member_absent (table : gmap string object) (key : string) :
  table !! key = None -> key ∉ objectPrototypeKeys -> member table key = None.
Proof.
  intros Hown Hinherited. unfold member. rewrite Hown.
  rewrite bool_decide_eq_false_2 by exact Hinherited. reflexivity.
Qed.

Lemma member_inherited (table : gmap string object) (key : string) :
  table !! key = None -> key ∈ objectPrototypeKeys ->
  member table key = Some ∅.
Proof.
  intros Hown Hinherited. unfold member. rewrite Hown.
  rewrite bool_decide_eq_true_2 by exact Hinherited. reflexivity.
Qed.

(** X5.  For an environment type without an entry of its own in
    [DEFAULT_VALIDATION_SETTINGS]: when the type is not the name of a
    property of [Object.prototype], it is resolved as the outdoor
    environment; when it is such a name ("constructor", "toString", ...),
    the inherited member is found instead, the outdoor fallback is skipped
    and the defaults are empty, so that a store without validation settings
    resolves to the empty settings. *)
Theorem getValidationSettings_unknown_environment (state : State) :
  DEFAULT_VALIDATION_SETTINGS !! getShowEnvironmentType state = None ->
  (getShowEnvironmentType state ∉ objectPrototypeKeys ->
   getValidationSettings state
   = getValidationSettings (withEnvironmentType state "outdoor"))
  /\ (getShowEnvironmentType state ∈ objectPrototypeKeys ->
      environmentDefaults (getShowEnvironmentType state) = ∅
      /\ (validation state = None -> getValidationSettings state = ∅)).
Proof.
  intros Hnone. unfold getValidationSettings, validationSettings,
    environmentDefaults.
  unfold getShowEnvironmentType in *. cbn [withEnvironmentType
    showEnvironmentType validation]. split.
  - intros Hinherited. rewrite (member_absent _ _ Hnone Hinherited).
    destruct (member DEFAULT_VALIDATION_SETTINGS "outdoor"); reflexivity.
  - intros Hinherited. rewrite (member_inherited _ _ Hnone Hinherited).
    split; [reflexivity|]. intros ->. reflexivity.
Qed.

Lemma getValidationSettings_canonical_merge_aux
    (state : State) (key : string) :
  prop (rawValidation state) "max_altitude" = VUndefined ->
  key <> "__proto__" ->
  getValidationSettings state !! key
  = match rawValidation state !! key with
    | Some v => Some v
    | None => environmentDefaults (getShowEnvironmentType state) !! key
    end.
Proof.
  intros Hraw Hkey. unfold getValidationSettings.
  rewrite (validationSettings_merge _ _ Hraw). fold (rawValidation state).
  rewrite lookup_union, lookup_delete_ne by congruence.
  destruct (rawValidation state !! key) as [v|];
    destruct (environmentDefaults _ !! key); reflexivity.
Qed.

(** X7.  Legacy keys are honoured only together with [max_altitude]: when
    [max_altitude] is undefined and the input has none of the four canonical
    properties, the four thresholds are the defaults of the environment,
    whatever else the input holds; this covers missing settings. *)
Theorem thresholds_default_without_max_altitude (state : State) :
  prop (rawValidation state) "max_altitude" = VUndefined ->
  Forall (fun key => rawValidation state !! key = None) canonicalKeys ->
  let defaults := environmentDefaults (getShowEnvironmentType state) in
  getAltitudeWarningThreshold state = prop defaults "maxAltitude"
  /\ getHorizontalVelocityThreshold state = prop defaults "maxVelocityXY"
  /\ getVerticalVelocityThreshold state = prop defaults "maxVelocityZ"
  /\ getProximityWarningThreshold state = prop defaults "minDistance".
Proof.
  intros Hraw Hkeys defaults.
  unfold canonicalKeys in Hkeys.
  apply Forall_cons in Hkeys as [Ha Hkeys].
  apply Forall_cons in Hkeys as [Hxy Hkeys].
  apply Forall_cons in Hkeys as [Hz Hkeys].
  apply Forall_cons in Hkeys as [Hmin _].
  unfold getAltitudeWarningThreshold, getHorizontalVelocityThreshold,
    getVerticalVelocityThreshold, getProximityWarningThreshold, prop.
  rewrite !(getValidationSettings_canonical_merge_aux state)
    by (exact Hraw || discriminate).
  rewrite Ha, Hxy, Hz, Hmin. repeat split; reflexivity.
Qed.

(** X8.  In the legacy branch nothing but the four legacy keys of the input
    is read: two inputs with a defined [max_altitude] that agree on the four
    legacy keys resolve to the same settings, whatever canonical or other
    properties they hold, and every property other than the four canonical
    ones keeps its default. *)
Theorem getValidationSettings_legacy_only (state : State) (v v' : object) :
  validation state = Some v ->
  prop v "max_altitude" <> VUndefined ->
  Forall (fun key => prop v key = prop v' key) legacyKeys ->
  getValidationSettings state
  = getValidationSettings (withValidation state (Some v'))
  /\ forall key : string, key ∉ canonicalKeys ->
       getValidationSettings state !! key
       = environmentDefaults (getShowEnvironmentType state) !! key.
Proof.
  intros Hv Hdefined Hkeys. unfold legacyKeys in Hkeys.
  apply Forall_cons in Hkeys as [Ha Hkeys].
  apply Forall_cons in Hkeys as [Hxy Hkeys].
  apply Forall_cons in Hkeys as [Hz Hkeys].
  apply Forall_cons in Hkeys as [Hmin _].
  assert (Hlegacy : isUndefined (prop v "max_altitude") = false)
    by (destruct (prop v "max_altitude"); [contradiction|reflexivity..]).
  unfold getValidationSettings, withValidation, getShowEnvironmentType.
  cbn [validation showEnvironmentType]. rewrite Hv.
  rewrite (validationSettings_legacy v) by exact Hlegacy.
  rewrite (validationSettings_legacy v') by (rewrite <- Ha; exact Hlegacy).
  rewrite Ha, Hxy, Hz, Hmin. split; [reflexivity|].
  intros key Hkey. apply not_canonical_key in Hkey as (? & ? & ? & ?).
  rewrite !lookup_insert_ne by congruence. reflexivity.
Qed.

(** X9.  Resolution is idempotent: when the defaults of the environment do
    not define [max_altitude], storing the resolved settings back as the raw
    settings and resolving again gives the same settings. *)
Theorem getValidationSettings_idempotent (state : State) :
  prop (environmentDefaults (getShowEnvironmentType state)) "max_altitude"
  = VUndefined ->
  getValidationSettings
    (withValidation state (Some (getValidationSettings state)))
  = getValidationSettings state.
Proof.
  intros Hdefaults.
  unfold getValidationSettings at 1. unfold withValidation, getShowEnvironmentType.
  cbn [validation showEnvironmentType].
  fold (getShowEnvironmentType state).
  set (type := getShowEnvironmentType state) in *.
  set (defaults := environmentDefaults type) in *.
  assert (Hcover : forall key : string,
            getValidationSettings state !! key = None ->
            defaults !! key = None).
  { intros key. unfold getValidationSettings. fold type.
    destruct (validation state) as [v|] eqn:Hv.
    - destruct (isUndefined (prop v "max_altitude")) eqn:Hlegacy.
      + rewrite validationSettings_canonical by exact Hlegacy.
        fold defaults. intros Hnone.
        apply lookup_union_None in Hnone as [_ Hnone]. exact Hnone.
      + rewrite validationSettings_legacy by exact Hlegacy. fold defaults.
        intros Hnone.
        repeat (apply lookup_insert_None in Hnone as [Hnone _]).
        exact Hnone.
    - unfold validationSettings, objectAssign. fold (environmentDefaults type).
      fold defaults. intros Hnone. exact Hnone. }
  assert (Hproto : getValidationSettings state !! "__proto__"
                   = defaults !! "__proto__").
  { unfold getValidationSettings. fold type.
    destruct (validation state) as [v|] eqn:Hv.
    - destruct (isUndefined (prop v "max_altitude")) eqn:Hlegacy.
      + rewrite validationSettings_canonical by exact Hlegacy.
        fold defaults. rewrite lookup_union, lookup_delete_eq.
        destruct (defaults !! "__proto__"); reflexivity.
      + rewrite validationSettings_legacy by exact Hlegacy. fold defaults.
        rewrite !lookup_insert_ne by discriminate. reflexivity.
    - unfold validationSettings, objectAssign. fold (environmentDefaults type).
      fold defaults. reflexivity. }
  assert (Hundefined :
            prop (getValidationSettings state) "max_altitude" = VUndefined).
  { unfold prop at 1. unfold getValidationSettings. fold type.
    destruct (validation state) as [v|] eqn:Hv.
    - destruct (isUndefined (prop v "max_altitude")) eqn:Hlegacy.
      + rewrite validationSettings_canonical by exact Hlegacy.
        fold defaults. rewrite lookup_union, lookup_delete_ne by discriminate.
        unfold prop in Hlegacy, Hdefaults.
        destruct (v !! "max_altitude") as [[| |r]|];
          destruct (defaults !! "max_altitude") as [[| |r']|];
          simpl in *; try discriminate; reflexivity.
      + rewrite validationSettings_legacy by exact Hlegacy. fold defaults.
        rewrite !lookup_insert_ne by discriminate. exact Hdefaults.
    - unfold validationSettings, objectAssign. fold (environmentDefaults type).
      fold defaults. exact Hdefaults. }
  rewrite validationSettings_canonical by (rewrite Hundefined; reflexivity).
  fold defaults. apply map_eq. intros key. rewrite lookup_union.
  destruct (decide (key = "__proto__")) as [->|Hne].
  - rewrite lookup_delete_eq, Hproto.
    destruct (defaults !! "__proto__"); reflexivity.
  - rewrite lookup_delete_ne by congruence.
    destruct (getValidationSettings state !! key) as [value|] eqn:Hkey.
    + destruct (defaults !! key); reflexivity.
    + rewrite (Hcover key Hkey). reflexivity.
Qed.

End ThresholdFacts.

Lemma getValidationSettings_unknown_environment_witness :
  let state := withEnvironmentType (emptyShow 10) "constructor" in
  (getShowEnvironmentType state ∉ objectPrototypeKeys ->
   getValidationSettings (H := sampleConstants) state
   = getValidationSettings (H := sampleConstants)
       (withEnvironmentType state "outdoor"))
  /\ (getShowEnvironmentType state ∈ objectPrototypeKeys ->
      environmentDefaults (H := sampleConstants)
        (getShowEnvironmentType state) = ∅
      /\ (validation state = None ->
          getValidationSettings (H := sampleConstants) state = ∅)).
Proof.
  intros state.
  apply (getValidationSettings_unknown_environment (H := sampleConstants)
           state).
  vm_compute. reflexivity.
Defined.

(** The type "indoor" has no entry in the sample table and falls back to
    the outdoor defaults; the type "constructor" finds an inherited member
    and gets no defaults. *)
Example sample_environment_defaults :
  environmentDefaults (H := sampleConstants) "indoor" = sampleDefaults
  /\ environmentDefaults (H := sampleConstants) "constructor" = ∅.
Proof. split; vm_compute; reflexivity. Qed.

Lemma thresholds_default_without_max_altitude_witness :
  let state :=
    withValidation (emptyShow 10) (Some {["max_velocity_xy" := VNumber 5]}) in
  let defaults :=
    environmentDefaults (H := sampleConstants) (getShowEnvironmentType state) in
  getAltitudeWarningThreshold (H := sampleConstants) state
  = prop defaults "maxAltitude"
  /\ getHorizontalVelocityThreshold (H := sampleConstants) state
     = prop defaults "maxVelocityXY"
  /\ getVerticalVelocityThreshold (H := sampleConstants) state
     = prop defaults "maxVelocityZ"
  /\ getProximityWarningThreshold (H := sampleConstants) state
     = prop defaults "minDistance".
Proof.
  intros state.
  apply (thresholds_default_without_max_altitude (H := sampleConstants) state).
  - reflexivity.
  - repeat constructor.
Defined.

Lemma getValidationSettings_legacy_only_witness :
  let state := withValidation (emptyShow 10) (Some legacyInput) in
  let mixed : object :=
    <["maxAltitude" := VNumber 80]> (<["note" := VNull]> legacyInput) in
  getValidationSettings (H := sampleConstants) state
  = getValidationSettings (H := sampleConstants)
      (withValidation state (Some mixed))
  /\ forall key : string, key ∉ canonicalKeys ->
       getValidationSettings (H := sampleConstants) state !! key
       = environmentDefaults (H := sampleConstants)
           (getShowEnvironmentType state) !! key.
Proof.
  intros state mixed.
  apply (getValidationSettings_legacy_only (H := sampleConstants)
           state legacyInput mixed).
  - reflexivity.
  - discriminate.
  - repeat constructor.
Defined.

Lemma getValidationSettings_idempotent_witness :
  let state := withValidation (emptyShow 10) (Some legacyInput) in
  getValidationSettings (H := sampleConstants)
    (withValidation state
       (Some (getValidationSettings (H := sampleConstants) state)))
  = getValidationSettings (H := sampleConstants) state.
Proof.
  intros state.
  apply (getValidationSettings_idempotent (H := sampleConstants) state).
  reflexivity.
Defined.

(** ** Spacing and growth of the sample-time grid *)

Section GridSpacingFacts.
Context `{Constants}.

Lemma sampledTimeInstants_length (duration : R) :
  0 < SAMPLES_PER_SECOND -> 0 <= duration ->
  let n := Z.to_nat (Js.ceil (duration * SAMPLES_PER_SECOND)) in
  length (sampledTimeInstants duration) = if decide (n = 0%nat) then 0%nat else S n.
Proof.
  intros Hr Hd n. subst n.
  rewrite (sampledTimeInstants_nonneg duration Hr Hd).
  assert (Hn : (0 <= Js.ceil (duration * SAMPLES_PER_SECOND))%Z)
    by (apply ceil_nonneg, Rmult_le_pos; lra).
  destruct (decide (Js.ceil (duration * SAMPLES_PER_SECOND) = 0%Z)) as [Hz|Hz].
  - rewrite Hz. reflexivity.
  - destruct (decide (Z.to_nat _ = 0%nat)) as [Hz'|_]; [lia|].
    rewrite length_app, uniformSamples_length. simpl.
    replace (Z.abs (Js.ceil (duration * SAMPLES_PER_SECOND)))
      with (Js.ceil (duration * SAMPLES_PER_SECOND)) by lia.
    lia.
Qed.

Lemma sampledTimeInstants_lookup_uniform (duration : R) (i : nat) :
  0 < SAMPLES_PER_SECOND -> 0 <= duration ->
  (i < Z.to_nat (Js.ceil (duration * SAMPLES_PER_SECOND)))%nat ->
  sampledTimeInstants duration !! i
  = Some (IZR (Z.of_nat i) / SAMPLES_PER_SECOND).
Proof.
  intros Hr Hd Hi.
  rewrite (sampledTimeInstants_nonneg duration Hr Hd).
  destruct (decide (Js.ceil (duration * SAMPLES_PER_SECOND) = 0%Z)) as [Hz|Hz];
    [rewrite Hz in Hi; simpl in Hi; lia|].
  rewrite lookup_app_l
    by (rewrite uniformSamples_length; lia).
  apply uniformSamples_lookup_pos; lia.
Qed.

Lemma sampledTimeInstants_lookup_last (duration : R) :
  0 < SAMPLES_PER_SECOND -> 0 <= duration ->
  (0 < Z.to_nat (Js.ceil (duration * SAMPLES_PER_SECOND)))%nat ->
  sampledTimeInstants duration
    !! Z.to_nat (Js.ceil (duration * SAMPLES_PER_SECOND))
  = Some duration.
Proof.
  intros Hr Hd Hn.
  rewrite (sampledTimeInstants_nonneg duration Hr Hd).
  destruct (decide (Js.ceil (duration * SAMPLES_PER_SECOND) = 0%Z)) as [Hz|Hz];
    [rewrite Hz in Hn; simpl in Hn; lia|].
  rewrite lookup_app_r by (rewrite uniformSamples_length; lia).
  rewrite uniformSamples_length.
  replace (Z.to_nat (Js.ceil (duration * SAMPLES_PER_SECOND))
           - Z.to_nat (Z.abs (Js.ceil (duration * SAMPLES_PER_SECOND))))%nat
    with 0%nat by lia.
  reflexivity.
Qed.

(** X10.  For a duration at least 0 the instant of index [i] below
    [n = ceil(duration * SAMPLES_PER_SECOND)] is [i / SAMPLES_PER_SECOND];
    when [n] is positive the instant of index [n] is the duration, and the
    last interval is positive and at most one sampling step long. *)
Theorem getSampledTimeInstants_spacing (state : State) :
  0 < SAMPLES_PER_SECOND -> 0 <= getShowDuration state ->
  let duration := getShowDuration state in
  let grid := getSampledTimeInstants state in
  let n := Z.to_nat (Js.ceil (duration * SAMPLES_PER_SECOND)) in
  (forall i : nat, (i < n)%nat ->
     grid !! i = Some (IZR (Z.of_nat i) / SAMPLES_PER_SECOND))
  /\ ((0 < n)%nat ->
      grid !! n = Some duration
      /\ 0 < duration - IZR (Z.of_nat (n - 1)) / SAMPLES_PER_SECOND
           <= 1 / SAMPLES_PER_SECOND).
Proof.
  intros Hr Hd duration grid n. subst grid. unfold getSampledTimeInstants.
  fold duration in Hd |- *. split.
  - intros i Hi. apply sampledTimeInstants_lookup_uniform; assumption.
  - intros Hn. split; [apply sampledTimeInstants_lookup_last; assumption|].
    destruct (Zceil_bound (duration * SAMPLES_PER_SECOND)) as [Hlo Hhi].
    fold (Js.ceil (duration * SAMPLES_PER_SECOND)) in Hlo, Hhi.
    replace (Z.of_nat (n - 1))
      with (Js.ceil (duration * SAMPLES_PER_SECOND) - 1)%Z by (subst n; lia).
    rewrite minus_IZR.
    set (c := IZR (Js.ceil (duration * SAMPLES_PER_SECOND))) in *.
    assert (Hq : 0 < / SAMPLES_PER_SECOND) by (apply Rinv_0_lt_compat; lra).
    assert (Hdq : duration
                  = duration * SAMPLES_PER_SECOND * / SAMPLES_PER_SECOND)
      by (field; lra).
    unfold Rdiv. set (q := / SAMPLES_PER_SECOND) in *.
    set (m := duration * SAMPLES_PER_SECOND) in *.
    rewrite Hdq. split; nra.
Qed.

(** X11.  A longer show never has fewer samples, and it keeps the uniform
    samples of the shorter one: for [0 <= d1 <= d2] the grid of [d1] is not
    longer than the grid of [d2], and below index
    [ceil(d1 * SAMPLES_PER_SECOND)] the two grids agree. *)
Theorem getSampledTimeInstants_monotone (state1 state2 : State) :
  0 < SAMPLES_PER_SECOND ->
  0 <= getShowDuration state1 <= getShowDuration state2 ->
  (length (getSampledTimeInstants state1)
   <= length (getSampledTimeInstants state2))%nat
  /\ forall i : nat,
       (i < Z.to_nat (Js.ceil (getShowDuration state1
                               * SAMPLES_PER_SECOND)))%nat ->
       getSampledTimeInstants state1 !! i = getSampledTimeInstants state2 !! i.
Proof.
  intros Hr [Hd1 Hd12]. unfold getSampledTimeInstants.
  set (d1 := getShowDuration state1) in *.
  set (d2 := getShowDuration state2) in *.
  assert (Hd2 : 0 <= d2) by lra.
  assert (Hceil : (Js.ceil (d1 * SAMPLES_PER_SECOND)
                   <= Js.ceil (d2 * SAMPLES_PER_SECOND))%Z)
    by (apply Zceil_le; nra).
  split.
  - rewrite (sampledTimeInstants_length d1 Hr Hd1),
            (sampledTimeInstants_length d2 Hr Hd2).
    destruct (decide (Z.to_nat (Js.ceil (d1 * SAMPLES_PER_SECOND)) = 0%nat));
      destruct (decide (Z.to_nat (Js.ceil (d2 * SAMPLES_PER_SECOND)) = 0%nat));
      lia.
  - intros i Hi.
    rewrite (sampledTimeInstants_lookup_uniform d1 i Hr Hd1 Hi).
    rewrite (sampledTimeInstants_lookup_uniform d2 i Hr Hd2) by lia.
    reflexivity.
Qed.

End GridSpacingFacts.

Lemma getSampledTimeInstants_spacing_witness :
  let state := emptyShow (5 / 2) in
  let grid := getSampledTimeInstants (H := sampleConstants) state in
  let n := Z.to_nat (Js.ceil (5 / 2 * 4)) in
  (forall i : nat, (i < n)%nat -> grid !! i = Some (IZR (Z.of_nat i) / 4))
  /\ ((0 < n)%nat ->
      grid !! n = Some (5 / 2)
      /\ 0 < 5 / 2 - IZR (Z.of_nat (n - 1)) / 4 <= 1 / 4).
Proof.
  apply (getSampledTimeInstants_spacing (H := sampleConstants)
           (emptyShow (5 / 2))); simpl; lra.
Defined.

Lemma getSampledTimeInstants_monotone_witness :
  (length (getSampledTimeInstants (H := sampleConstants) (emptyShow 1))
   <= length (getSampledTimeInstants (H := sampleConstants)
                (emptyShow (5 / 2))))%nat
  /\ forall i : nat,
       (i < Z.to_nat (Js.ceil (1 * 4)))%nat ->
       getSampledTimeInstants (H := sampleConstants) (emptyShow 1) !! i
       = getSampledTimeInstants (H := sampleConstants) (emptyShow (5 / 2)) !! i.
Proof.
  apply (getSampledTimeInstants_monotone (H := sampleConstants)
           (emptyShow 1) (emptyShow (5 / 2))); simpl; lra.
Defined.

(** ** Signs and bounds of the derived values *)

Lemma hypot2_bounds (a b : R) :
  0 <= Js.hypot2 a b
  /\ Rabs a <= Js.hypot2 a b
  /\ Rabs b <= Js.hypot2 a b
  /\ Js.hypot2 a b * Js.hypot2 a b = a * a + b * b
  /\ (Js.hypot2 a b = 0 <-> a = 0 /\ b = 0).
Proof.
  unfold Js.hypot2.
  assert (Hsum : 0 <= a * a + b * b) by nra.
  pose proof (sqrt_pos (a * a + b * b)) as Hpos.
  pose proof (sqrt_sqrt _ Hsum) as Hsq.
  set (h := sqrt (a * a + b * b)) in *.
  split; [exact Hpos|]. split; [|split; [|split; [exact Hsq|]]].
  - unfold Rabs. destruct (Rcase_abs a); nra.
  - unfold Rabs. destruct (Rcase_abs b); nra.
  - split.
    + intros Hz. rewrite Hz in Hsq. split; nra.
    + intros [-> ->]. subst h.
      replace (0 * 0 + 0 * 0) with 0 by lra. apply sqrt_0.
Qed.

Section DerivedValueFacts.
Context `{Constants}.

Lemma horizontalVelocities_lookup (state : State) (droneIndex i : nat)
    (player : TrajectoryPlayer) (time : R) :
  getTrajectoryPlayers state !! droneIndex = Some player ->
  getSampledTimeInstants state !! i = Some time ->
  getSampledHorizontalVelocitiesForDrones state !! droneIndex
    ≫= (fun speeds => speeds !! i)
  = Some (Js.hypot2 (x (getVelocityAt player time))
                    (y (getVelocityAt player time))).
Proof.
  intros Hplayer Htime.
  unfold getSampledHorizontalVelocitiesForDrones,
    sampledHorizontalVelocitiesForDrones, getSampledVelocitiesForDrones,
    sampledVelocitiesForDrones.
  rewrite !list_lookup_fmap, Hplayer. simpl.
  rewrite !list_lookup_fmap, Htime. reflexivity.
Qed.

(** X12.  A horizontal speed is never negative, bounds the absolute value of
    both horizontal velocity components, does not depend on the vertical
    component, and is 0 only for a drone with no horizontal motion. *)
Theorem horizontal_speed_bounds (state : State) (droneIndex i : nat)
    (player : TrajectoryPlayer) (time : R) :
  getTrajectoryPlayers state !! droneIndex = Some player ->
  getSampledTimeInstants state !! i = Some time ->
  let v := getVelocityAt player time in
  exists speed : R,
    getSampledHorizontalVelocitiesForDrones state !! droneIndex
      ≫= (fun speeds => speeds !! i) = Some speed
    /\ 0 <= speed
    /\ Rabs (x v) <= speed
    /\ Rabs (y v) <= speed
    /\ speed * speed = x v * x v + y v * y v
    /\ (speed = 0 <-> x v = 0 /\ y v = 0).
Proof.
  intros Hplayer Htime v. eexists. split.
  - apply (horizontalVelocities_lookup _ _ _ _ _ Hplayer Htime).
  - apply hypot2_bounds.
Qed.

(** X13.  [getNearestNeighborDistancesForFrames] leaves no cell of its
    result empty: every entry is [null] or a distance, and a distance is
    never negative. *)
Theorem nearest_neighbor_entries_filled (state : State) :
  exists distances,
    getNearestNeighborDistancesForFrames state = Some distances
    /\ forall (frameIndex : nat) (entry : distanceEntry),
         distances !! frameIndex = Some entry ->
         entry = Null \/ exists d : R, entry = Distance d /\ 0 <= d.
Proof.
  destruct (sampled_nearestNeighborDistances (getTrajectoryPlayers state)
              (getSampledTimeInstants state)) as
    (distances & Heq & Hlen & Hlookup).
  exists distances. split; [exact Heq|].
  intros frameIndex entry Hentry.
  assert (Hlt : (frameIndex < length (getSampledTimeInstants state))%nat)
    by (rewrite <- Hlen; eapply lookup_lt_Some; exact Hentry).
  apply lookup_lt_is_Some_2 in Hlt as [time Htime].
  rewrite (Hlookup _ _ Htime) in Hentry. injection Hentry as <-.
  destruct (ClosestPair.getClosestPair _) as [[a b]|]; simpl.
  - right. eexists. split; [reflexivity|]. unfold Js.hypot3. apply sqrt_pos.
  - left. reflexivity.
Qed.

End DerivedValueFacts.

Lemma horizontal_speed_bounds_witness :
  let v := mkPoint 3 4 0 in
  exists speed : R,
    getSampledHorizontalVelocitiesForDrones (H := sampleConstants)
      twoDroneShow !! 0%nat ≫= (fun speeds => speeds !! 0%nat) = Some speed
    /\ 0 <= speed
    /\ Rabs (x v) <= speed
    /\ Rabs (y v) <= speed
    /\ speed * speed = x v * x v + y v * y v
    /\ (speed = 0 <-> x v = 0 /\ y v = 0).
Proof.
  apply (horizontal_speed_bounds (H := sampleConstants) twoDroneShow 0 0
           (steadyPlayer (mkPoint 0 0 0) (mkPoint 3 4 0)) (0 / 4)).
  - reflexivity.
  - exact twoDroneShow_first_instant.
Defined.
